(** * simple-codemod-script: the codemod runner and its example codemod

    A shallow embedding of [run-codemod.ts] (the runner: [transformFile],
    [main] and the top-level [try]/[catch]), of [codemods/index.ts] (the
    registry object) and of [codemods/react-to-star-import.ts] (the example
    codemod), with the properties of the pipeline proved over it.

    Libraries the script calls ([@babel/parser], [recast], [globby],
    [chalk], the JavaScript runtime) are not part of the repository.  The
    parser, the glob resolver and the colouring functions are taken as
    parameters (class [Externals]); recast's change tracking and printing
    are modelled in [Module Recast]. *)

From Stdlib Require Import String Ascii.
From stdpp Require Import gmap strings list pretty.

Local Open Scope string_scope.
Local Open Scope list_scope.
Local Open Scope nat_scope.
Local Open Scope stdpp_scope.

(** ** The Babel AST, restricted to what the codemod inspects *)

(** [start]/[end] offsets of a node in the source text. *)
Record Loc := mkLoc { loc_start : nat; loc_end : nat }.

Record Identifier := mkIdentifier { id_name : string; id_loc : Loc }.

(** The members of [ImportDeclaration.specifiers].  A node made by a
    [@babel/types] builder has no location: [None]. *)
Inductive Specifier :=
| ImportDefaultSpecifier (local : Identifier) (loc : option Loc)
| ImportSpecifier (imported local : Identifier) (loc : option Loc)
| ImportNamespaceSpecifier (local : Identifier) (loc : option Loc).

(** [ImportDeclaration.source]: Babel's [StringLiteral], or the combined
    [Literal] node of the ESTree format that the runner's comments warn
    about.  [raw] is the literal as written, quotes included. *)
Inductive ModuleSource :=
| StringLiteral (value raw : string) (loc : Loc)
| Literal (value raw : string) (loc : Loc).

(** A statement of [Program.body]; every kind other than an import
    declaration is opaque to the codemod. *)
Inductive Statement :=
| ImportDeclaration (specifiers : list Specifier) (source : ModuleSource) (loc : Loc)
| OtherStatement (type : string) (loc : Loc).

Record Program := mkProgram { body : list Statement }.

Global Instance Loc_eq_dec : EqDecision Loc.
Proof. solve_decision. Defined.
Global Instance Identifier_eq_dec : EqDecision Identifier.
Proof. solve_decision. Defined.
Global Instance Specifier_eq_dec : EqDecision Specifier.
Proof. solve_decision. Defined.
Global Instance ModuleSource_eq_dec : EqDecision ModuleSource.
Proof. solve_decision. Defined.
Global Instance Statement_eq_dec : EqDecision Statement.
Proof. solve_decision. Defined.

Definition statement_loc (statement : Statement) : Loc :=
  match statement with
  | ImportDeclaration _ _ loc => loc
  | OtherStatement _ loc => loc
  end.

(** ** codemods/react-to-star-import.ts *)

Module ReactToStarImport.

(** [t.importNamespaceSpecifier(localIdent)]: a fresh node around the
    identifier node it is given. *)
Definition importNamespaceSpecifier (localIdent : Identifier) : Specifier :=
  ImportNamespaceSpecifier localIdent None.

(** The body of the inner loop at index [i]:
    [statement.specifiers[i] = newSpecifier] when the specifier is an
    [ImportDefaultSpecifier]. *)
Definition visit_specifier (i : nat) (specifiers : list Specifier) : list Specifier :=
  match specifiers !! i with
  | Some (ImportDefaultSpecifier localIdent _) =>
      <[i := importNamespaceSpecifier localIdent]> specifiers
  | _ => specifiers
  end.

(** [for (let i = 0; i < statement.specifiers.length; i++)].  The array is
    updated in place, so its length is read again at every test; [fuel]
    bounds the number of iterations. *)
Fixpoint for_specifiers (fuel i : nat) (specifiers : list Specifier) : list Specifier :=
  match fuel with
  | 0 => specifiers
  | S fuel' =>
      if decide (i < length specifiers)
      then for_specifiers fuel' (S i) (visit_specifier i specifiers)
      else specifiers
  end.

(** The body of the outer loop. *)
Definition visit_statement (statement : Statement) : Statement :=
  match statement with
  | ImportDeclaration specifiers (StringLiteral value raw sloc) loc =>
      if String.eqb value "react"
      then ImportDeclaration
             (for_specifiers (length specifiers) 0 specifiers)
             (StringLiteral value raw sloc) loc
      else statement
  | _ => statement
  end.

(** [export default function codemod(ast, filepath, source)]: the tree is
    mutated in place; the embedding returns the mutated tree. *)
Definition codemod (ast : Program) (filepath source : string) : Program :=
  mkProgram (visit_statement <$> body ast).

End ReactToStarImport.

(** ** What the codemod does to a tree, in closed form *)

(** A default specifier becomes a namespace specifier around the same
    identifier node; the other kinds are kept. *)
Definition to_namespace (specifier : Specifier) : Specifier :=
  match specifier with
  | ImportDefaultSpecifier localIdent _ => ImportNamespaceSpecifier localIdent None
  | _ => specifier
  end.

Definition is_default (specifier : Specifier) : bool :=
  match specifier with
  | ImportDefaultSpecifier _ _ => true
  | _ => false
  end.

Definition specifier_local (specifier : Specifier) : Identifier :=
  match specifier with
  | ImportDefaultSpecifier l _ => l
  | ImportSpecifier _ l _ => l
  | ImportNamespaceSpecifier l _ => l
  end.

(** An import declaration whose source is the string literal "react". *)
Definition is_react_import (statement : Statement) : bool :=
  match statement with
  | ImportDeclaration _ (StringLiteral value _ _) _ => String.eqb value "react"
  | _ => false
  end.

Definition statement_specifiers (statement : Statement) : list Specifier :=
  match statement with
  | ImportDeclaration specifiers _ _ => specifiers
  | OtherStatement _ _ => []
  end.

(** A statement is changed exactly when it is an import from "react" that
    holds a default specifier. *)
Definition has_default (statement : Statement) : bool :=
  is_react_import statement && existsb is_default (statement_specifiers statement).


(** ** JavaScript values the runner handles *)

(** The line feed and the double quote, which string literals below
    cannot hold directly. *)
Definition nl : string := String "010" EmptyString.
Definition dquote : string := String "034" EmptyString.

(** An [Error] object: [err.stack] is [name: message] followed by the
    call-site trace the runtime captured. *)
Record JsError := mkJsError { err_name : string; err_message : string; err_trace : string }.

Definition err_stack (err : JsError) : string :=
  err_name err +:+ ": " +:+ err_message err +:+ err_trace err.

(** How an evaluation ends: with a value, or with a thrown error. *)
Inductive Completion (A : Type) :=
| Normal (value : A)
| Throw (err : JsError).
Arguments Normal {A} value.
Arguments Throw {A} err.

(** [String.prototype.trim], on the ASCII white space characters. *)
Fixpoint trimStart (s : string) : string :=
  match s with
  | String c rest => if Ascii.is_space c then trimStart rest else s
  | EmptyString => EmptyString
  end.

Definition trim (s : string) : string :=
  String.rev (trimStart (String.rev (trimStart s))).

(** [Array.prototype.join]. *)
Definition join (sep : string) (items : list string) : string := String.concat sep items.

Inductive Color := green | blue | yellow | gray | cyan | magenta | red.

(** What the script takes from its libraries and from the runtime. *)
Class Externals := {
  (** [babelParser.parse(source, {sourceFilename, ...})], reduced to the
      [program] of the [File] it returns; a syntax error is thrown. *)
  babel_parse : string → string → Completion Program;
  (** [globby.sync(glob)] against a file system. *)
  globby_sync : gmap string string → string → list string;
  (** [chalk.<color>(text)]. *)
  chalk : Color → string → string;
  (** The trace the runtime records in an [Error] built in the named function. *)
  capture_trace : string → string;
  (** The message of the [TypeError] raised by calling the named member of
      [Object.prototype] as a plain function. *)
  type_error_message : string → string;
}.

(** ** recast: change tracking and printing *)

Module Recast.

(** The tree [recast.parse] hands out, together with what recast keeps
    about it: the tree as parsed and the text it was parsed from. *)
Record File := mkFile { program : Program; original : Program; lines : string }.

(** Modelled from the spec: [recast.parse] is a library function whose
    code is not in the repository.  It calls the parser it is given and
    keeps the parsed tree and the source text next to the copy it returns
    (the "positional/formatting metadata for lossless reprinting"). *)
Definition parse (parser : string → Completion Program) (source : string) : Completion File :=
  match parser source with
  | Normal parsed => Normal (mkFile parsed parsed source)
  | Throw err => Throw err
  end.

(** The program node of the file is the object the codemod mutates: the
    mutation is seen through the file. *)
Definition set_program (ast : File) (mutated : Program) : File :=
  mkFile mutated (original ast) (lines ast).

Definition slice (loc : Loc) (text : string) : string :=
  substring (loc_start loc) (loc_end loc - loc_start loc) text.

Definition specifier_loc (specifier : Specifier) : option Loc :=
  match specifier with
  | ImportDefaultSpecifier _ loc => loc
  | ImportSpecifier _ _ loc => loc
  | ImportNamespaceSpecifier _ loc => loc
  end.

(** Modelled from the spec: the printing of one specifier.  A node that
    came from the parse keeps its source text; a node built by the
    transform has no span and gets the canonical form. *)
Definition print_specifier (text : string) (specifier : Specifier) : string :=
  match specifier_loc specifier with
  | Some loc => slice loc text
  | None =>
      match specifier with
      | ImportDefaultSpecifier localIdent _ => id_name localIdent
      | ImportSpecifier imported localIdent _ =>
          if decide (id_name imported = id_name localIdent)
          then id_name imported
          else id_name imported +:+ " as " +:+ id_name localIdent
      | ImportNamespaceSpecifier localIdent _ => "* as " +:+ id_name localIdent
      end
  end.

Definition is_braced (specifier : Specifier) : bool :=
  match specifier with
  | ImportSpecifier _ _ _ => true
  | _ => false
  end.

Definition source_raw (source : ModuleSource) : string :=
  match source with
  | StringLiteral _ raw _ => raw
  | Literal _ raw _ => raw
  end.

(** Modelled from the spec: the canonical form of an import declaration
    that is printed afresh: the unbraced specifiers, then the braced
    ones, single spaces, the source literal as it was written, and a
    closing semicolon.  This is the one-line form, that of a value
    import whose braced specifiers fit on a line and that holds no
    comment: recast breaks a longer list over several lines and prints
    the comments attached to the nodes, which the trees here do not
    carry.  No statement below fixes the text of a declaration outside
    that form. *)
Definition print_import (text : string) (specifiers : list Specifier) (source : ModuleSource) : string :=
  let unbraced := print_specifier text <$> filter (λ s, is_braced s = false) specifiers in
  let braced := print_specifier text <$> filter (λ s, is_braced s = true) specifiers in
  "import " +:+
  match specifiers with
  | [] => EmptyString
  | _ =>
      join ", " unbraced +:+
      match braced with
      | [] => EmptyString
      | _ =>
          (match unbraced with [] => EmptyString | _ => ", " end)
          +:+ "{ " +:+ join ", " braced +:+ " }"
      end +:+ " from "
  end +:+ source_raw source +:+ ";".

Definition print_statement (text : string) (statement : Statement) : string :=
  match statement with
  | ImportDeclaration specifiers source _ => print_import text specifiers source
  | OtherStatement _ loc => slice loc text
  end.

Definition same_type (new old : Statement) : bool :=
  match new, old with
  | ImportDeclaration _ _ _, ImportDeclaration _ _ _ => true
  | OtherStatement t1 _, OtherStatement t2 _ => String.eqb t1 t2
  | _, _ => false
  end.

(** Modelled from the spec: the comparison of a statement with the one
    parsed at the same position.  An untouched statement needs no
    reprint.  A statement in which a child was replaced by a node of
    another kind is printed afresh, in place of its old span.  Statements
    of different kinds are not interchangeable: [None] sends the decision
    to the enclosing node. *)
Definition find_statement_reprints (text : string) (new old : Statement)
  : option (list (Loc * string)) :=
  if decide (new = old) then Some []
  else if same_type new old
       then Some [(statement_loc old, print_statement text new)]
       else None.

Fixpoint find_array_reprints (text : string) (new old : list Statement)
  : option (list (Loc * string)) :=
  match new, old with
  | [], [] => Some []
  | n :: new', o :: old' =>
      match find_statement_reprints text n o, find_array_reprints text new' old' with
      | Some here, Some there => Some (here ++ there)
      | _, _ => None
      end
  | _, _ => None
  end.

(** The patcher: the source text, with the old span of every reprint
    replaced by the new text.  [pos] is the offset reached so far. *)
Fixpoint patch (text : string) (pos : nat) (reprints : list (Loc * string)) : string :=
  match reprints with
  | [] => substring pos (String.length text - pos) text
  | (loc, new_text) :: rest =>
      substring pos (loc_start loc - pos) text +:+ new_text +:+ patch text (loc_end loc) rest
  end.

(** Printing a whole body afresh, when statements were added or removed:
    one statement per line, the untouched ones with their source text. *)
Definition print_body (ast : File) : string :=
  join nl ((λ statement,
              if decide (statement ∈ body (original ast))
              then slice (statement_loc statement) (lines ast)
              else print_statement (lines ast) statement) <$> body (program ast)).

(** recast keeps a text as its lines and joins them again with
    [os.EOL] when it prints: every line terminator of the text, the
    pair CR LF or a lone CR as well as LF, comes out as the line feed of
    the POSIX systems modelled here.  (Texts are strings of 8-bit
    characters, so the separators U+2028 and U+2029, which recast also
    takes for line ends, do not occur.) *)
Fixpoint normalizeEOL (text : string) : string :=
  match text with
  | EmptyString => EmptyString
  | String c rest =>
      if decide (c = "013"%char)
      then match rest with
           | String c' rest' =>
               if decide (c' = "010"%char)
               then String "010" (normalizeEOL rest')
               else String "010" (normalizeEOL rest)
           | EmptyString => String "010" EmptyString
           end
      else String c (normalizeEOL rest)
  end.

Fixpoint has_carriage_return (text : string) : bool :=
  match text with
  | EmptyString => false
  | String c rest => if decide (c = "013"%char) then true else has_carriage_return rest
  end.

(** Modelled from the spec: [recast.print(ast).code]. *)
Definition print (ast : File) : string :=
  match find_array_reprints (lines ast) (body (program ast)) (body (original ast)) with
  | Some reprints => normalizeEOL (patch (lines ast) 0 reprints)
  | None => normalizeEOL (print_body ast)
  end.

End Recast.

(** ** The world the runner acts on *)

Inductive ConsoleLine :=
| Log (text : string)          (* console.log *)
| ErrorLine (text : string).   (* console.error *)

Inductive IoEvent :=
| ReadFile (path : string)
| WriteFile (path content : string).

Record World := mkWorld {
  files : gmap string string;     (* the file system: path to content *)
  console : list ConsoleLine;     (* what was printed, oldest first *)
  io : list IoEvent;              (* the file operations made, oldest first *)
}.

(** Computations of the runner: they read and update the world and end
    normally or by throwing. *)
Definition M (A : Type) : Type := World → Completion A * World.

Definition ret {A} (a : A) : M A := λ w, (Normal a, w).
Definition throw {A} (err : JsError) : M A := λ w, (Throw err, w).
Definition bind {A B} (m : M A) (k : A → M B) : M B :=
  λ w, match m w with
       | (Normal a, w') => k a w'
       | (Throw err, w') => (Throw err, w')
       end.
Definition lift {A} (c : Completion A) : M A := λ w, (c, w).

(** [try { body } catch (err) { handler }]. *)
Definition try_catch {A} (body : M A) (handler : JsError → M A) : M A :=
  λ w, match body w with
       | (Normal a, w') => (Normal a, w')
       | (Throw err, w') => handler err w'
       end.

Declare Scope run_scope.
Delimit Scope run_scope with run.
Notation "x <- m ;; k" := (bind m (λ x, k))
  (at level 100, m at next level, k at level 200, right associativity) : run_scope.
Notation "m ;; k" := (bind m (λ _, k))
  (at level 100, k at level 200, right associativity) : run_scope.
Local Open Scope run_scope.

Definition console_log (text : string) : M unit :=
  λ w, (Normal tt, mkWorld (files w) (console w ++ [Log text]) (io w)).

Definition console_error (text : string) : M unit :=
  λ w, (Normal tt, mkWorld (files w) (console w ++ [ErrorLine text]) (io w)).

(** [for (const x of items) { body }]. *)
Fixpoint for_of {A} (items : list A) (body : A → M unit) : M unit :=
  match items with
  | [] => ret tt
  | x :: rest => body x ;; for_of rest body
  end.

Section Runner.
Context `{Externals}.

(** [new Error(message)] built in the function [site]. *)
Definition new_Error (site message : string) : JsError :=
  mkJsError "Error" message (capture_trace site).

Definition new_TypeError (site message : string) : JsError :=
  mkJsError "TypeError" message (capture_trace site).

(** [fs.readFileSync(file, "utf-8")]. *)
Definition readFileSync (file : string) : M string :=
  λ w, let w' := mkWorld (files w) (console w) (io w ++ [ReadFile file]) in
       match files w !! file with
       | Some content => (Normal content, w')
       | None =>
           (Throw (new_Error "readFileSync"
                     ("ENOENT: no such file or directory, open '" +:+ file +:+ "'")), w')
       end.

(** [fs.writeFileSync(file, data)]. *)
Definition writeFileSync (file data : string) : M unit :=
  λ w, (Normal tt, mkWorld (<[file := data]> (files w)) (console w)
                           (io w ++ [WriteFile file data])).

(** ** codemods/index.ts *)

Definition Codemod : Type := Program → string → string → Program.

(** The own properties of the [codemods] object, in insertion order. *)
Definition codemods : list (string * Codemod) :=
  [("react-to-star-import", ReactToStarImport.codemod)].

(** [Object.keys(codemods)]. *)
Definition Object_keys : list string := fst <$> codemods.

(** The object is a literal, so its prototype is [Object.prototype]: a
    property read that finds no own property goes on to these members. *)
Definition Object_prototype_members : list string :=
  [ "constructor"; "__defineGetter__"; "__defineSetter__"; "hasOwnProperty";
    "__lookupGetter__"; "__lookupSetter__"; "isPrototypeOf";
    "propertyIsEnumerable"; "toString"; "valueOf"; "__proto__";
    "toLocaleString" ].

Inductive JsValue :=
| RegisteredCodemod (fn : Codemod)
| PrototypeMember (key : string).

Fixpoint own_property (entries : list (string * Codemod)) (key : string) : option Codemod :=
  match entries with
  | [] => None
  | (k, fn) :: rest => if decide (k = key) then Some fn else own_property rest key
  end.

(** [codemods[codemodName]]; [None] is [undefined]. *)
Definition get_codemod (codemodName : string) : option JsValue :=
  match own_property codemods codemodName with
  | Some fn => Some (RegisteredCodemod fn)
  | None =>
      if decide (codemodName ∈ Object_prototype_members)
      then Some (PrototypeMember codemodName)
      else None
  end.

(** [codemod(program, filepath, source)]: a plain call, so the callee's
    [this] is [undefined].  [Object.prototype.toString] and the [Object]
    constructor return without touching the tree; [__proto__] holds an
    object that is not callable; the other members convert [this] to an
    object first, which throws. *)
Definition call_codemod (codemod : JsValue) (program : Program) (filepath source : string)
  : Completion Program :=
  match codemod with
  | RegisteredCodemod fn => Normal (fn program filepath source)
  | PrototypeMember key =>
      if decide (key = "toString" ∨ key = "constructor") then Normal program
      else if decide (key = "__proto__")
           then Throw (new_TypeError "transformFile" "codemod is not a function")
           else Throw (new_TypeError key (type_error_message key))
  end.

(** ** run-codemod.ts *)

Definition no_such_codemod (codemodName : string) : string :=
  "No such codemod: " +:+ codemodName +:+ ". Valid codemod names: "
  +:+ join ", " Object_keys +:+ ".".

Definition transformFile (codemodName filepath source : string) : Completion string :=
  match Recast.parse (λ source, babel_parse source filepath) source with
  | Throw err => Throw err
  | Normal ast =>
      let program := Recast.program ast in
      match get_codemod codemodName with
      | None => Throw (new_Error "transformFile" (no_such_codemod codemodName))
      | Some codemod =>
          match call_codemod codemod program filepath source with
          | Throw err => Throw err
          | Normal mutated => Normal (Recast.print (Recast.set_program ast mutated))
          end
      end
  end.

Definition must_specify : string :=
  "You must specify a codemod to run as the first command-line argument. Valid codemod names: "
  +:+ join ", " Object_keys +:+ ".".

Definition default_glob : string := "./src/**/*.{js,jsx,ts,tsx}".

(** [process.argv.splice(1, 1)]. *)
Definition splice_1_1 (argv : list string) : list string := take 1 argv ++ drop 2 argv.

(** A string read from [process.argv] is falsy when it is missing or empty. *)
Definition truthy (arg : option string) : option string :=
  match arg with
  | Some EmptyString => None
  | _ => arg
  end.

Definition found_line (found : list string) : string :=
  "Found " +:+ pretty (length found) +:+ " file"
  +:+ (if decide (length found = 1) then EmptyString else "s")
  +:+ " to run the codemod on"
  +:+ (if decide (length found = 0) then "." else ":").

Definition listing (found : list string) : string :=
  "- " +:+ join (nl +:+ "- ") (take 2 found)
  +:+ (if decide (2 < length found)
       then nl +:+ " - ...and " +:+ pretty (length found - 2) +:+ " more"
       else EmptyString).

(** The body of the loop over the files. *)
Definition transform_one (codemodName file : string) : M unit :=
  console_log (chalk cyan (nl +:+ "Transforming:") +:+ " " +:+ file) ;;
  source <- readFileSync file ;;
  console_log (chalk magenta "--- Before: ---") ;;
  console_log (trim source) ;;
  newSource <- lift (transformFile codemodName file source) ;;
  console_log (chalk magenta "--- After: ---") ;;
  console_log (trim newSource) ;;
  console_log (chalk magenta ("------" +:+ nl)) ;;
  writeFileSync file newSource.

Definition main (process_argv : list string) : M unit :=
  let argv := splice_1_1 process_argv in
  console_log (chalk green (nl +:+ nl +:+ "--- Starting codemod run. ---")) ;;
  match truthy (argv !! 2) with
  | None => throw (new_Error "main" must_specify)
  | Some codemodName =>
      let glob := default default_glob (truthy (argv !! 3)) in
      console_log (chalk blue ("Searching for files matching: " +:+ glob)) ;;
      found <- (λ w, (Normal (globby_sync (files w) glob), w)) ;;
      console_log (chalk yellow (found_line found)) ;;
      (if decide (0 < length found)
       then console_log (chalk gray (listing found))
       else ret tt) ;;
      for_of found (transform_one codemodName) ;;
      console_log (chalk green "All done!")
  end.

(** The top level of the script: [try { main(); } catch (err) { ... }]. *)
Definition script (process_argv : list string) : M unit :=
  try_catch (main process_argv)
    (λ err, console_error (chalk red "Codemod failed:") ;;
            console_error (err_stack err)).

(** The exit status of the process: the script sets none, so it is 0
    when the module body completes and 1 when an error escapes it. *)
Definition exit_status (process_argv : list string) (w : World) : nat :=
  match script process_argv w with
  | (Normal _, _) => 0
  | (Throw _, _) => 1
  end.

End Runner.

(** ** A small instance of the externals

    Concrete libraries to run the pipeline on: a parser for a fragment of
    JavaScript (import declarations, identifier statements, line
    comments), a glob resolver that knows literal paths only, and chalk
    with colours switched off. *)

Module Mini.

Definition digit_or_letter (c : ascii) : bool :=
  let n := nat_of_ascii c in
  (48 <=? n) && (n <=? 57) || (65 <=? n) && (n <=? 90) || (97 <=? n) && (n <=? 122)
  || (n =? 95) || (n =? 36).

Definition is_newline (c : ascii) : bool :=
  let n := nat_of_ascii c in (n =? 10) || (n =? 13).

(** White space and [//] comments. *)
Fixpoint skip_trivia (in_comment : bool) (s : string) (pos : nat) : string * nat :=
  match s with
  | EmptyString => (s, pos)
  | String c rest =>
      if in_comment
      then skip_trivia (negb (is_newline c)) rest (S pos)
      else if Ascii.is_space c then skip_trivia false rest (S pos)
      else match c, rest with
           | "/"%char, String "/"%char _ => skip_trivia true rest (S pos)
           | _, _ => (s, pos)
           end
  end.

Fixpoint skip_blanks (s : string) (pos : nat) : string * nat :=
  match s with
  | String c rest =>
      if decide (c = " "%char ∨ c = "009"%char) then skip_blanks rest (S pos) else (s, pos)
  | EmptyString => (s, pos)
  end.

(** The longest run of identifier characters. *)
Fixpoint read_word (s : string) : string * string :=
  match s with
  | String c rest =>
      if digit_or_letter c
      then let '(word, rest') := read_word rest in (String c word, rest')
      else (EmptyString, s)
  | EmptyString => (EmptyString, s)
  end.

Definition read_identifier (s : string) (pos : nat) : option (Identifier * string * nat) :=
  let '(word, rest) := read_word s in
  match word with
  | EmptyString => None
  | String c _ =>
      if (48 <=? nat_of_ascii c) && (nat_of_ascii c <=? 57) then None
      else let pos' := pos + String.length word in
           Some (mkIdentifier word (mkLoc pos pos'), rest, pos')
  end.

(** The characters up to the closing quote. *)
Fixpoint read_until (quote : ascii) (s : string) : option (string * string) :=
  match s with
  | EmptyString => None
  | String c rest =>
      if decide (c = quote) then Some (EmptyString, rest)
      else if is_newline c then None
      else '(value, rest') ← read_until quote rest; Some (String c value, rest')
  end.

Definition read_string (s : string) (pos : nat) : option (ModuleSource * string * nat) :=
  match s with
  | String quote rest =>
      if decide (quote = "034"%char ∨ quote = "'"%char)
      then '(value, rest') ← read_until quote rest;
           let raw := String quote (value +:+ String quote EmptyString) in
           let pos' := pos + String.length raw in
           Some (StringLiteral value raw (mkLoc pos pos'), rest', pos')
      else None
  | EmptyString => None
  end.

Definition expect (c : ascii) (s : string) (pos : nat) : option (string * nat) :=
  match s with
  | String c' rest => if decide (c' = c) then Some (rest, S pos) else None
  | EmptyString => None
  end.

Definition expect_word (word : string) (s : string) (pos : nat) : option (string * nat) :=
  '(id, rest, pos') ← read_identifier s pos;
  if decide (id_name id = word) then Some (rest, pos') else None.

(** [imported] or [imported as local]. *)
Definition read_named (s : string) (pos : nat) : option (Specifier * string * nat) :=
  '(imported, s1, p1) ← read_identifier s pos;
  let '(s2, p2) := skip_trivia false s1 p1 in
  match expect_word "as" s2 p2 with
  | Some (s3, p3) =>
      let '(s4, p4) := skip_trivia false s3 p3 in
      '(localIdent, s5, p5) ← read_identifier s4 p4;
      Some (ImportSpecifier imported localIdent (Some (mkLoc pos p5)), s5, p5)
  | None => Some (ImportSpecifier imported imported (Some (mkLoc pos p1)), s1, p1)
  end.

(** The specifiers between the braces, after the opening one. *)
Fixpoint read_braced (fuel : nat) (s : string) (pos : nat) : option (list Specifier * string * nat) :=
  match fuel with
  | 0 => None
  | S fuel' =>
      let '(s1, p1) := skip_trivia false s pos in
      match expect "}" s1 p1 with
      | Some (s2, p2) => Some ([], s2, p2)
      | None =>
          '(specifier, s2, p2) ← read_named s1 p1;
          let '(s3, p3) := skip_trivia false s2 p2 in
          match expect "," s3 p3 with
          | Some (s4, p4) =>
              '(more, s5, p5) ← read_braced fuel' s4 p4; Some (specifier :: more, s5, p5)
          | None => '(s4, p4) ← expect "}" s3 p3; Some ([specifier], s4, p4)
          end
      end
  end.

(** [* as local]. *)
Definition read_namespace (s : string) (pos : nat) : option (Specifier * string * nat) :=
  '(s1, p1) ← expect "*" s pos;
  let '(s2, p2) := skip_trivia false s1 p1 in
  '(s3, p3) ← expect_word "as" s2 p2;
  let '(s4, p4) := skip_trivia false s3 p3 in
  '(localIdent, s5, p5) ← read_identifier s4 p4;
  Some (ImportNamespaceSpecifier localIdent (Some (mkLoc pos p5)), s5, p5).

(** The specifiers that may follow the default one, or stand alone. *)
Definition read_namespace_or_braced (s : string) (pos : nat) : option (list Specifier * string * nat) :=
  match expect "{" s pos with
  | Some (s1, p1) => read_braced (S (String.length s1)) s1 p1
  | None => '(specifier, s1, p1) ← read_namespace s pos; Some ([specifier], s1, p1)
  end.

Definition read_specifiers (s : string) (pos : nat) : option (list Specifier * string * nat) :=
  match read_identifier s pos with
  | Some (localIdent, s1, p1) =>
      let first := ImportDefaultSpecifier localIdent (Some (id_loc localIdent)) in
      let '(s2, p2) := skip_trivia false s1 p1 in
      match expect "," s2 p2 with
      | Some (s3, p3) =>
          let '(s4, p4) := skip_trivia false s3 p3 in
          '(more, s5, p5) ← read_namespace_or_braced s4 p4; Some (first :: more, s5, p5)
      | None => Some ([first], s1, p1)
      end
  | None => read_namespace_or_braced s pos
  end.

(** The end of a statement: a semicolon, or a line end, or the end of
    the text. *)
Definition read_end (s : string) (pos : nat) : option (string * nat) :=
  let '(s1, p1) := skip_blanks s pos in
  match s1 with
  | EmptyString => Some (s, pos)
  | String c rest =>
      if decide (c = ";"%char) then Some (rest, S p1)
      else if is_newline c then Some (s, pos)
      else None
  end.

(** One statement, starting at a character that is not trivia. *)
Definition read_statement (s : string) (pos : nat) : option (Statement * string * nat) :=
  '(word, s1, p1) ← read_identifier s pos;
  if decide (id_name word = "import")
  then
    let '(s2, p2) := skip_trivia false s1 p1 in
    match read_string s2 p2 with
    | Some (source, s3, p3) =>
        '(s4, p4) ← read_end s3 p3;
        Some (ImportDeclaration [] source (mkLoc pos p4), s4, p4)
    | None =>
        '(specifiers, s3, p3) ← read_specifiers s2 p2;
        let '(s4, p4) := skip_trivia false s3 p3 in
        '(s5, p5) ← expect_word "from" s4 p4;
        let '(s6, p6) := skip_trivia false s5 p5 in
        '(source, s7, p7) ← read_string s6 p6;
        '(s8, p8) ← read_end s7 p7;
        Some (ImportDeclaration specifiers source (mkLoc pos p8), s8, p8)
    end
  else
    '(s2, p2) ← read_end s1 p1;
    Some (OtherStatement "ExpressionStatement" (mkLoc pos p2), s2, p2).

Fixpoint read_body (fuel : nat) (s : string) (pos : nat) : option (list Statement) :=
  match fuel with
  | 0 => None
  | S fuel' =>
      let '(s1, p1) := skip_trivia false s pos in
      match s1 with
      | EmptyString => Some []
      | _ =>
          '(statement, s2, p2) ← read_statement s1 p1;
          more ← read_body fuel' s2 p2; Some (statement :: more)
      end
  end.

(** Modelled from the spec: [@babel/parser] is a library whose code is
    not in the repository; this stand-in accepts the fragment above and
    throws a [SyntaxError] on any other text. *)
Definition parse (source filename : string) : Completion Program :=
  match read_body (S (String.length source)) source 0 with
  | Some statements => Normal (mkProgram statements)
  | None => Throw (mkJsError "SyntaxError" ("Unexpected token in " +:+ filename) EmptyString)
  end.

(** A resolver for patterns without wildcards: a literal path, or one
    alternation group [prefix{a,b,c}suffix]; the paths that exist, in the
    order of the alternatives. *)
Fixpoint split_commas (s : string) : list string :=
  match s with
  | EmptyString => [EmptyString]
  | String c rest =>
      if decide (c = ","%char) then EmptyString :: split_commas rest
      else match split_commas rest with
           | first :: others => String c first :: others
           | [] => [String c EmptyString]
           end
  end.

Fixpoint split_at (c : ascii) (s : string) : option (string * string) :=
  match s with
  | EmptyString => None
  | String c' rest =>
      if decide (c' = c) then Some (EmptyString, rest)
      else '(before, after) ← split_at c rest; Some (String c' before, after)
  end.

Definition expand (pattern : string) : list string :=
  match split_at "{" pattern with
  | None => [pattern]
  | Some (prefix, rest) =>
      match split_at "}" rest with
      | None => [pattern]
      | Some (alternatives, suffix) =>
          (λ alternative, prefix +:+ alternative +:+ suffix) <$> split_commas alternatives
      end
  end.

Definition resolve (fs : gmap string string) (pattern : string) : list string :=
  filter (λ path, is_Some (fs !! path)) (expand pattern).

#[export] Instance externals : Externals := {|
  babel_parse := parse;
  globby_sync := resolve;
  chalk := λ _ text, text;
  capture_trace := λ site, nl +:+ "    at " +:+ site;
  type_error_message := λ _, "Cannot convert undefined or null to object";
|}.

End Mini.

(** ** Vocabulary of the statements below *)

Section RunnerVocabulary.
Context `{Externals}.

(** What one completed turn of the loop prints. *)
Definition transform_one_lines (file source newSource : string) : list ConsoleLine :=
  [ Log (chalk cyan (nl +:+ "Transforming:") +:+ " " +:+ file);
    Log (chalk magenta "--- Before: ---");
    Log (trim source);
    Log (chalk magenta "--- After: ---");
    Log (trim newSource);
    Log (chalk magenta ("------" +:+ nl)) ].

(** What [main] prints before the loop. *)
Definition prelude (glob : string) (found : list string) : list ConsoleLine :=
  [ Log (chalk green (nl +:+ nl +:+ "--- Starting codemod run. ---"));
    Log (chalk blue ("Searching for files matching: " +:+ glob));
    Log (chalk yellow (found_line found)) ]
  ++ (if decide (0 < length found) then [Log (chalk gray (listing found))] else []).

End RunnerVocabulary.

(** The paths written, oldest first. *)
Definition written_paths (events : list IoEvent) : list string :=
  omap (λ event, match event with WriteFile path _ => Some path | ReadFile _ => None end) events.

(** The texts sent to [console.error], oldest first. *)
Definition error_lines (printed : list ConsoleLine) : list string :=
  omap (λ line, match line with ErrorLine text => Some text | Log _ => None end) printed.

(** Reading a file and transforming its content, without the effects. *)
Definition file_result `{Externals} (codemodName : string) (fs : gmap string string) (file : string)
  : Completion string :=
  match fs !! file with
  | Some source => transformFile codemodName file source
  | None =>
      Throw (new_Error "readFileSync"
               ("ENOENT: no such file or directory, open '" +:+ file +:+ "'"))
  end.

(** The error the loop meets at a file when the codemod name resolves to
    nothing: the read error or the parse error of that file if it has
    one, the unknown-codemod error otherwise. *)
Definition unknown_codemod_failure `{Externals} (codemodName : string)
    (fs : gmap string string) (file : string) : JsError :=
  match fs !! file with
  | None =>
      new_Error "readFileSync" ("ENOENT: no such file or directory, open '" +:+ file +:+ "'")
  | Some source =>
      match babel_parse source file with
      | Throw err => err
      | Normal _ => new_Error "transformFile" (no_such_codemod codemodName)
      end
  end.

(** [only_ranges_replaced pos text ranges printed]: [text], which
    starts at offset [pos] of the whole source, is cut into the pieces
    outside the [ranges] and the pieces they cover; [printed] has the
    same pieces outside the ranges, in the same order, and some text in
    place of each range. *)
Inductive only_ranges_replaced : nat → string → list Loc → string → Prop :=
| ranges_done (pos : nat) (rest : string) :
    only_ranges_replaced pos rest [] rest
| ranges_step (pos : nat) (kept old rest new printed : string) (loc : Loc) (ranges : list Loc) :
    loc_start loc = pos + String.length kept →
    loc_end loc = loc_start loc + String.length old →
    only_ranges_replaced (loc_end loc) rest ranges printed →
    only_ranges_replaced pos (kept +:+ old +:+ rest) (loc :: ranges) (kept +:+ new +:+ printed).

(** [printed] differs from [text] only inside the [ranges]: outside
    them the two are the same, byte for byte. *)
Definition differs_only_in (text printed : string) (ranges : list Loc) : Prop :=
  only_ranges_replaced 0 text ranges printed.

(** The spans follow each other from offset [pos] on, without overlap,
    within a text of length [len]: what a parser gives for the
    statements of a body. *)
Fixpoint spans_in_order (pos len : nat) (spans : list Loc) : Prop :=
  match spans with
  | [] => pos ≤ len
  | loc :: rest =>
      pos ≤ loc_start loc ∧ loc_start loc ≤ loc_end loc ∧ spans_in_order (loc_end loc) len rest
  end.

(** The module an import declaration names. *)
Definition statement_source (statement : Statement) : option ModuleSource :=
  match statement with
  | ImportDeclaration _ source _ => Some source
  | OtherStatement _ _ => None
  end.

(** The spans of the nodes the codemod replaces: the default specifiers
    of the imports from "react". *)
Definition replaced_specifier_spans (ast : Program) : list Loc :=
  statement ← body ast;
  if is_react_import statement
  then omap Recast.specifier_loc (filter (λ s, is_default s = true) (statement_specifiers statement))
  else [].

(** The spans of the declarations in which the codemod replaces a specifier. *)
Definition rewritten_declaration_spans (ast : Program) : list Loc :=
  statement_loc <$> filter (λ statement, has_default statement = true) (body ast).

(** The reprints recast finds after the codemod: one for each import
    from "react" that held a default specifier, over the whole
    declaration. *)
Definition codemod_reprints (text : string) (statements : list Statement) : list (Loc * string) :=
  (λ statement, (statement_loc statement,
                 Recast.print_statement text (ReactToStarImport.visit_statement statement)))
    <$> filter (λ statement, has_default statement = true) statements.

(** ** Sample inputs *)

Module Samples.

Definition quoted (s : string) : string := dquote +:+ s +:+ dquote.

Definition default_import : string := "import React from " +:+ quoted "react" +:+ ";".
Definition star_import : string := "import * as React from " +:+ quoted "react" +:+ ";".
Definition named_import : string := "import { useState } from " +:+ quoted "react" +:+ ";".
Definition other_module : string := "import Something from " +:+ quoted "other-module" +:+ ";".

(** The trees Babel builds for the three texts. *)
Definition default_import_ast : Program :=
  mkProgram [ImportDeclaration
               [ImportDefaultSpecifier (mkIdentifier "React" (mkLoc 7 12)) (Some (mkLoc 7 12))]
               (StringLiteral "react" (quoted "react") (mkLoc 18 25)) (mkLoc 0 26)].

Definition named_import_ast : Program :=
  mkProgram [ImportDeclaration
               [ImportSpecifier (mkIdentifier "useState" (mkLoc 9 17))
                  (mkIdentifier "useState" (mkLoc 9 17)) (Some (mkLoc 9 17))]
               (StringLiteral "react" (quoted "react") (mkLoc 25 32)) (mkLoc 0 33)].

Definition other_module_ast : Program :=
  mkProgram [ImportDeclaration
               [ImportDefaultSpecifier (mkIdentifier "Something" (mkLoc 7 16)) (Some (mkLoc 7 16))]
               (StringLiteral "other-module" (quoted "other-module") (mkLoc 22 36)) (mkLoc 0 37)].

(** A text with a comment, uneven spacing, single quotes and no semicolon. *)
Definition untidy : string :=
  "// the view layer" +:+ nl +:+
  "import   React , { useState  as us, b }   from 'react'" +:+ nl +:+
  "render;" +:+ nl +:+
  "import * as X from 'y';".

(** A default import written with two spaces after the keyword. *)
Definition two_spaces : string := "import  React from 'react';".

(** A text no parser accepts. *)
Definition broken : string := ")".

Definition argv (args : list string) : list string :=
  ["node"; "xode"; "run-codemod.ts"] ++ args.

Definition world (entries : list (string * string)) : World :=
  mkWorld (list_to_map entries) [] [].

(** Three files, the second of which does not parse. *)
Definition three_files : World :=
  world [("src/a.js", default_import); ("src/b.js", broken); ("src/c.js", default_import)].

Definition one_file : World := world [("src/a.js", default_import)].
Definition one_broken_file : World := world [("src/a.js", broken)].

(** Command lines: the three files through an alternation group, one
    file, an unknown codemod name, and a run that asks for a dry run. *)
Definition three_files_argv : list string := argv ["react-to-star-import"; "src/{a,b,c}.js"].
Definition one_file_argv : list string := argv ["react-to-star-import"; "src/a.js"].
Definition unknown_argv : list string := argv ["no-such-codemod"; "src/a.js"].
Definition dry_run_argv : list string := argv ["react-to-star-import"; "src/a.js"; "--dry-run"].

End Samples.

(** ** Vocabulary of whole runs *)

(** The paths read, oldest first. *)
Definition read_paths (events : list IoEvent) : list string :=
  omap (λ event, match event with ReadFile path => Some path | WriteFile _ _ => None end) events.

Section RunVocabulary.
Context `{Externals}.

(** The content of a file, and the text the pipeline prints for it. *)
Definition source_text (fs : gmap string string) (file : string) : string :=
  default EmptyString (fs !! file).

Definition printed_text (codemodName : string) (fs : gmap string string) (file : string) : string :=
  match file_result codemodName fs file with
  | Normal printed => printed
  | Throw _ => EmptyString
  end.

(** What the loop prints and does over files that all complete. *)
Definition run_lines (codemodName : string) (fs : gmap string string) (found : list string)
  : list ConsoleLine :=
  file ← found;
  transform_one_lines file (source_text fs file) (printed_text codemodName fs file).

Definition run_events (codemodName : string) (fs : gmap string string) (found : list string)
  : list IoEvent :=
  file ← found; [ReadFile file; WriteFile file (printed_text codemodName fs file)].

(** The file system after each of the files was overwritten. *)
Definition write_all (codemodName : string) (fs : gmap string string) (found : list string)
  : gmap string string :=
  foldl (λ acc file, <[file := printed_text codemodName fs file]> acc) fs found.

(** The glob a command line asks for. *)
Definition glob_of (process_argv : list string) : string :=
  default default_glob (truthy (splice_1_1 process_argv !! 3)).

End RunVocabulary.

Module MoreSamples.
Import Samples.

(** Two files that parse: one the codemod rewrites, one it leaves alone. *)
Definition two_files : World :=
  world [("src/a.js", default_import); ("src/b.js", named_import)].
Definition two_files_argv : list string := argv ["react-to-star-import"; "src/{a,b}.js"].


(** A command line without a glob, and one without a codemod name. *)
Definition name_only_argv : list string := argv ["react-to-star-import"].
Definition bare_argv : list string := argv [].

(** A text with CR LF line ends, and the same text with LF ones. *)
Definition cr : string := String "013" EmptyString.
Definition crlf_text : string := "foo;" +:+ cr +:+ nl +:+ "bar;" +:+ cr +:+ nl.
Definition lf_text : string := "foo;" +:+ nl +:+ "bar;" +:+ nl.

(** A text the codemod has nothing to do in. *)
Definition quiet_text : string :=
  "// hooks only" +:+ nl +:+ "import { useState } from 'react';" +:+ nl +:+ "render;" +:+ nl.

(** A default import followed by a named one, and what the pipeline
    prints for it. *)
Definition mixed_import : string := "import React, { useState } from " +:+ quoted "react" +:+ ";".
Definition mixed_star_import : string :=
  "import * as React, { useState } from " +:+ quoted "react" +:+ ";".

(** A tree with a default and a named specifier in an import from "react". *)
Definition mixed_import_ast : Program :=
  mkProgram
    [ImportDeclaration
       [ImportDefaultSpecifier (mkIdentifier "React" (mkLoc 7 12)) (Some (mkLoc 7 12));
        ImportSpecifier (mkIdentifier "useState" (mkLoc 16 24))
          (mkIdentifier "useState" (mkLoc 16 24)) (Some (mkLoc 16 24))]
       (StringLiteral "react" (quoted "react") (mkLoc 32 39)) (mkLoc 0 40);
     OtherStatement "ExpressionStatement" (mkLoc 41 48)].

End MoreSamples.

(** * Properties *)

(** ** The codemod on trees *)

Section CodemodLemmas.
Import ReactToStarImport.

Lemma visit_specifier_length i specifiers :
  length (visit_specifier i specifiers) = length specifiers.
Proof.
  unfold visit_specifier.
  destruct (specifiers !! i) as [[]|]; auto using length_insert.
Qed.

Lemma visit_specifier_middle pre specifier rest :
  visit_specifier (length pre) (pre ++ specifier :: rest)
  = pre ++ to_namespace specifier :: rest.
Proof.
  unfold visit_specifier. rewrite list_lookup_middle by done.
  destruct specifier; simpl; try done.
  rewrite insert_app_r_alt by lia. by rewrite Nat.sub_diag.
Qed.

(** The loop leaves by its test, not by lack of fuel, and maps
    [to_namespace] over the indices it visits. *)
Lemma for_specifiers_app fuel pre rest :
  length rest ≤ fuel →
  for_specifiers fuel (length pre) (pre ++ rest) = pre ++ (to_namespace <$> rest).
Proof.
  revert pre rest. induction fuel as [|fuel IH]; intros pre rest Hfuel; simpl.
  - destruct rest; simpl in *; [done|lia].
  - destruct rest as [|specifier rest]; simpl in *.
    + case_decide as Hi; [|done]. rewrite length_app in Hi. simpl in Hi. lia.
    + case_decide as Hi; [|rewrite length_app in Hi; simpl in Hi; lia].
      rewrite visit_specifier_middle.
      replace (S (length pre)) with (length (pre ++ [to_namespace specifier]))
        by (rewrite length_app; simpl; lia).
      rewrite (cons_middle _ pre rest), app_assoc.
      rewrite IH by lia. by rewrite <- app_assoc.
Qed.

Lemma rewrite_specifiers_map specifiers :
  for_specifiers (length specifiers) 0 specifiers = to_namespace <$> specifiers.
Proof. by rewrite (for_specifiers_app _ [] specifiers). Qed.

Lemma visit_statement_spec statement :
  visit_statement statement =
  match statement with
  | ImportDeclaration specifiers source loc =>
      if is_react_import statement
      then ImportDeclaration (to_namespace <$> specifiers) source loc
      else statement
  | _ => statement
  end.
Proof.
  destruct statement as [specifiers [value raw sloc|value raw sloc] loc|]; simpl; try done.
  by rewrite rewrite_specifiers_map.
Qed.

Lemma to_namespace_idemp specifier : to_namespace (to_namespace specifier) = to_namespace specifier.
Proof. by destruct specifier. Qed.

Lemma to_namespace_not_default specifier : is_default (to_namespace specifier) = false.
Proof. by destruct specifier. Qed.

Lemma to_namespace_id specifier : is_default specifier = false → to_namespace specifier = specifier.
Proof. by destruct specifier. Qed.

Lemma visit_statement_react statement :
  is_react_import (visit_statement statement) = is_react_import statement.
Proof.
  destruct statement as [specifiers [value raw sloc|value raw sloc] loc|]; simpl; try done.
  destruct (String.eqb value "react") eqn:E; simpl; by rewrite E.
Qed.

Lemma visit_statement_loc statement :
  statement_loc (visit_statement statement) = statement_loc statement.
Proof.
  destruct statement as [specifiers [value raw sloc|value raw sloc] loc|]; simpl; try done.
  by destruct (String.eqb value "react").
Qed.

Lemma visit_statement_idemp statement :
  visit_statement (visit_statement statement) = visit_statement statement.
Proof.
  rewrite (visit_statement_spec statement).
  destruct statement as [specifiers source loc|]; [|done].
  destruct (is_react_import _) eqn:E; rewrite visit_statement_spec.
  - replace (is_react_import (ImportDeclaration (to_namespace <$> specifiers) source loc))
      with true by (by destruct source).
    f_equal. rewrite <- list_fmap_compose. apply list_fmap_ext.
    intros ? ? _. apply to_namespace_idemp.
  - by rewrite E.
Qed.

Lemma map_to_namespace_id specifiers :
  existsb is_default specifiers = false → to_namespace <$> specifiers = specifiers.
Proof.
  induction specifiers as [|sp rest IH]; csimpl; [done|].
  intros [H1 H2]%orb_false_elim. by rewrite to_namespace_id, IH.
Qed.

Lemma map_to_namespace_changed specifiers :
  existsb is_default specifiers = true → to_namespace <$> specifiers ≠ specifiers.
Proof.
  induction specifiers as [|sp rest IH]; csimpl; [done|].
  intros [H1|H2]%orb_true_elim Heq; injection Heq as Hsp Hrest.
  - by destruct sp.
  - by apply IH.
Qed.

Lemma visit_statement_unchanged statement :
  has_default statement = false → visit_statement statement = statement.
Proof.
  unfold has_default. rewrite visit_statement_spec.
  destruct statement as [specifiers source loc|]; [|done].
  destruct (is_react_import _); simpl; [|done].
  intros H. by rewrite map_to_namespace_id.
Qed.

Lemma visit_statement_changed statement :
  has_default statement = true → visit_statement statement ≠ statement.
Proof.
  unfold has_default. rewrite visit_statement_spec.
  destruct statement as [specifiers source loc|]; [|done].
  destruct (is_react_import _); simpl; [|done].
  intros H Heq. injection Heq as Heq. by apply map_to_namespace_changed in Heq.
Qed.

End CodemodLemmas.

Section CodemodProperties.
Import ReactToStarImport.

(** C10: in an import declaration whose source is the string literal
    "react" the codemod replaces every [ImportDefaultSpecifier], at its
    index, by an [ImportNamespaceSpecifier] around the same local
    identifier node, keeps every other specifier and the length of the
    list; any other statement is left as it was; the body keeps its
    length. *)
Theorem codemod_replaces_default_specifiers_in_place
    (ast : Program) (filepath source : string) (k : nat) (statement : Statement) :
  body ast !! k = Some statement →
  length (body (codemod ast filepath source)) = length (body ast) ∧
  ∃ statement', body (codemod ast filepath source) !! k = Some statement' ∧
    (is_react_import statement = true →
       ∃ specifiers literal loc specifiers',
         statement = ImportDeclaration specifiers literal loc ∧
         statement' = ImportDeclaration specifiers' literal loc ∧
         length specifiers' = length specifiers ∧
         ∀ i specifier, specifiers !! i = Some specifier →
           specifiers' !! i =
             Some match specifier with
                  | ImportDefaultSpecifier localIdent _ => ImportNamespaceSpecifier localIdent None
                  | ImportSpecifier _ _ _ | ImportNamespaceSpecifier _ _ => specifier
                  end) ∧
    (is_react_import statement = false → statement' = statement).
Proof.
  intros Hk. unfold codemod; simpl. split; [by rewrite length_fmap|].
  exists (visit_statement statement). split.
  { by rewrite list_lookup_fmap, Hk. }
  rewrite visit_statement_spec. split.
  - intros Hreact. destruct statement as [specifiers literal loc|]; [|done].
    rewrite Hreact. exists specifiers, literal, loc, (to_namespace <$> specifiers).
    repeat split; [by rewrite length_fmap|].
    intros i specifier Hi. rewrite list_lookup_fmap, Hi. by destruct specifier.
  - intros Hother. destruct statement; [|done]. by rewrite Hother.
Qed.

Lemma codemod_twice (ast : Program) (filepath source : string) :
  codemod (codemod ast filepath source) filepath source = codemod ast filepath source.
Proof.
  unfold codemod; simpl. f_equal. rewrite <- list_fmap_compose.
  apply list_fmap_ext. intros ? ? _. apply visit_statement_idemp.
Qed.

Lemma codemod_leaves_no_default (ast : Program) (filepath source : string) :
  Forall (λ statement, has_default statement = false) (body (codemod ast filepath source)).
Proof.
  unfold codemod; simpl. apply Forall_forall. intros statement' Hin.
  apply list_elem_of_fmap in Hin as (statement & -> & _).
  unfold has_default. rewrite visit_statement_react, visit_statement_spec.
  destruct statement as [specifiers literal loc|]; [|done].
  destruct (is_react_import _) eqn:E; simpl; [|done].
  induction specifiers as [|sp rest IH]; csimpl; [done|].
  by rewrite to_namespace_not_default, IH.
Qed.

Lemma codemod_without_default (ast : Program) (filepath source : string) :
  Forall (λ statement, has_default statement = false) (body ast) →
  codemod ast filepath source = ast.
Proof.
  destruct ast as [statements]. unfold codemod; simpl. intros Hquiet. f_equal.
  induction Hquiet as [|statement rest Hhead _ IH]; csimpl; [done|].
  by rewrite visit_statement_unchanged, IH.
Qed.

End CodemodProperties.

(** ** Printing *)

Section StringLemmas.

Lemma append_cons (c : ascii) (s t : string) : String c s +:+ t = String c (s +:+ t).
Proof. reflexivity. Qed.

Lemma substring_all (s : string) : substring 0 (String.length s) s = s.
Proof. induction s as [|c s IH]; simpl; [done|by rewrite IH]. Qed.

Lemma substring_add (n m k : nat) (s : string) :
  substring n (m + k) s = substring n m s +:+ substring (n + m) k s.
Proof.
  revert n m. induction s as [|c s IH]; intros n m.
  - destruct n, m, k; reflexivity.
  - destruct n as [|n]; simpl.
    + destruct m as [|m]; simpl; [done|].
      rewrite append_cons. f_equal. apply (IH 0 m).
    + apply IH.
Qed.

Lemma length_substring (n m : nat) (s : string) :
  n + m ≤ String.length s → String.length (substring n m s) = m.
Proof.
  revert n m. induction s as [|c s IH]; intros n m Hlen; simpl in Hlen.
  - destruct n, m; simpl; lia.
  - destruct n as [|n]; simpl.
    + destruct m as [|m]; simpl; [done|]. rewrite (IH 0 m) by lia. done.
    + apply IH. lia.
Qed.

Lemma substring_prefix (a b : string) : substring 0 (String.length a) (a +:+ b) = a.
Proof.
  induction a as [|c a IH].
  - by destruct b.
  - change (String c a +:+ b) with (String c (a +:+ b)). simpl. by rewrite IH.
Qed.

Lemma prefix_determined (a b text : string) (n : nat) :
  a +:+ b = text → String.length a = n → a = substring 0 n text.
Proof. intros <- <-. by rewrite substring_prefix. Qed.

(** A text three ways: up to a span, the span, and after it. *)
Lemma substring_three (pos a b : nat) (text : string) :
  pos ≤ a → a ≤ b → b ≤ String.length text →
  substring pos (String.length text - pos) text
  = substring pos (a - pos) text +:+ substring a (b - a) text
    +:+ substring b (String.length text - b) text.
Proof.
  intros Hpos Hab Hlen.
  replace (String.length text - pos) with ((a - pos) + ((b - a) + (String.length text - b)))
    by lia.
  rewrite substring_add. replace (pos + (a - pos)) with a by lia.
  rewrite substring_add. replace (a + (b - a)) with b by lia. done.
Qed.

Lemma normalizeEOL_without_carriage_return (text : string) :
  Recast.has_carriage_return text = false → Recast.normalizeEOL text = text.
Proof.
  induction text as [|c rest IH]; simpl; [done|].
  case_decide; [done|]. intros Hrest. by rewrite IH.
Qed.

Lemma has_carriage_return_cons (c : ascii) (text : string) :
  Recast.has_carriage_return (String c text)
  = if decide (c = "013"%char) then true else Recast.has_carriage_return text.
Proof. reflexivity. Qed.

Lemma normalizeEOL_leaves_no_carriage_return (text : string) :
  Recast.has_carriage_return (Recast.normalizeEOL text) = false ∧
  ∀ c, Recast.has_carriage_return (Recast.normalizeEOL (String c text)) = false.
Proof.
  induction text as [|a text [IH1 IH2]].
  - split; [done|]. intros c. simpl. case_decide; simpl; [done|by rewrite decide_False].
  - split; [apply IH2|]. intros c.
    change (Recast.normalizeEOL (String c (String a text)))
      with (if decide (c = "013"%char)
            then (if decide (a = "010"%char)
                  then String "010" (Recast.normalizeEOL text)
                  else String "010" (Recast.normalizeEOL (String a text)))
            else String c (Recast.normalizeEOL (String a text))).
    destruct (decide (c = "013"%char)) as [->|Hc].
    + destruct (decide (a = "010"%char)) as [->|Ha];
        rewrite has_carriage_return_cons, decide_False by done; [exact IH1|apply IH2].
    + rewrite has_carriage_return_cons, decide_False by done. apply IH2.
Qed.

Lemma normalizeEOL_twice (text : string) :
  Recast.normalizeEOL (Recast.normalizeEOL text) = Recast.normalizeEOL text.
Proof.
  apply normalizeEOL_without_carriage_return, normalizeEOL_leaves_no_carriage_return.
Qed.

End StringLemmas.

Section PrintLemmas.
Import ReactToStarImport.

Lemma patch_nil (text : string) : Recast.patch text 0 [] = text.
Proof. simpl. rewrite Nat.sub_0_r. apply substring_all. Qed.

Lemma find_statement_reprints_same text statement :
  Recast.find_statement_reprints text statement statement = Some [].
Proof. unfold Recast.find_statement_reprints. by rewrite decide_True. Qed.

Lemma find_array_reprints_same text statements :
  Recast.find_array_reprints text statements statements = Some [].
Proof.
  induction statements as [|statement rest IH]; simpl; [done|].
  by rewrite find_statement_reprints_same, IH.
Qed.

(** An unmutated tree prints as the text it was parsed from, with its
    line ends rewritten. *)
Lemma print_unmutated (parsed : Program) (text : string) :
  Recast.print (Recast.mkFile parsed parsed text) = Recast.normalizeEOL text.
Proof.
  unfold Recast.print; simpl. rewrite find_array_reprints_same. by rewrite patch_nil.
Qed.

Lemma same_type_visit statement :
  Recast.same_type (visit_statement statement) statement = true.
Proof.
  destruct statement as [specifiers [value raw sloc|value raw sloc] loc|type loc]; simpl;
    [by destruct (String.eqb value "react")|done|apply String.eqb_refl].
Qed.

Lemma find_array_reprints_codemod text statements :
  Recast.find_array_reprints text (visit_statement <$> statements) statements
  = Some (codemod_reprints text statements).
Proof.
  unfold codemod_reprints.
  induction statements as [|statement rest IH]; csimpl; [done|].
  rewrite IH. unfold Recast.find_statement_reprints.
  destruct (has_default statement) eqn:E.
  - rewrite decide_False by (by apply visit_statement_changed).
    rewrite same_type_visit, filter_cons_True by done. done.
  - rewrite decide_True by (by apply visit_statement_unchanged).
    rewrite filter_cons_False by congruence. done.
Qed.

Lemma codemod_reprints_spans text (ast : Program) :
  (codemod_reprints text (body ast)).*1 = rewritten_declaration_spans ast.
Proof.
  unfold codemod_reprints, rewritten_declaration_spans.
  rewrite <- list_fmap_compose. by apply list_fmap_ext.
Qed.

Lemma spans_in_order_bound pos len spans : spans_in_order pos len spans → pos ≤ len.
Proof.
  revert pos. induction spans as [|loc rest IH]; intros pos; simpl; [done|].
  intros (Hstart & Hspan & Hrest). apply IH in Hrest. lia.
Qed.

Lemma spans_in_order_from pos pos' len spans :
  pos' ≤ pos → spans_in_order pos len spans → spans_in_order pos' len spans.
Proof. destruct spans; simpl; [lia|]. intros Hle (Hstart & Hrest). split; [lia|done]. Qed.

Lemma spans_in_order_filter (P : Statement → Prop) `{∀ statement, Decision (P statement)}
    pos len (statements : list Statement) :
  spans_in_order pos len (statement_loc <$> statements) →
  spans_in_order pos len (statement_loc <$> filter P statements).
Proof.
  revert pos. induction statements as [|statement rest IH]; intros pos; csimpl; [done|].
  intros (Hstart & Hspan & Hrest). apply IH in Hrest.
  destruct (decide (P statement)) as [Hyes|Hno].
  - rewrite filter_cons_True by done. csimpl. done.
  - rewrite filter_cons_False by done.
    apply (spans_in_order_from (loc_end (statement_loc statement))); [lia|done].
Qed.

(** The patcher keeps the text outside the spans it is given, when the
    spans follow each other inside the text. *)
Lemma patch_only_ranges text pos (reprints : list (Loc * string)) :
  spans_in_order pos (String.length text) (reprints.*1) →
  only_ranges_replaced pos (substring pos (String.length text - pos) text)
    (reprints.*1) (Recast.patch text pos reprints).
Proof.
  revert pos. induction reprints as [|[loc new] rest IH]; intros pos; csimpl.
  - intros _. constructor.
  - intros (Hstart & Hspan & Hrest).
    pose proof (spans_in_order_bound _ _ _ Hrest) as Hend.
    rewrite (substring_three pos (loc_start loc) (loc_end loc)) by lia.
    apply ranges_step.
    + rewrite length_substring by lia. lia.
    + rewrite length_substring by lia. lia.
    + by apply IH.
Qed.

End PrintLemmas.

Section PipelineProperties.
Context `{Externals}.
Import ReactToStarImport.

Lemma transformFile_registered filepath source parsed :
  babel_parse source filepath = Normal parsed →
  transformFile "react-to-star-import" filepath source
  = Normal (Recast.print (Recast.mkFile (codemod parsed filepath source) parsed source)).
Proof. intros Hparse. unfold transformFile, Recast.parse. by rewrite Hparse. Qed.

(** C1: on the tree Babel builds for a default import from "react" the
    pipeline prints the star import; a named import from "react" and a
    default import from another module come back unchanged. *)
Theorem react_to_star_import_scenarios (filepath : string) :
  babel_parse Samples.default_import filepath = Normal Samples.default_import_ast →
  babel_parse Samples.named_import filepath = Normal Samples.named_import_ast →
  babel_parse Samples.other_module filepath = Normal Samples.other_module_ast →
  transformFile "react-to-star-import" filepath Samples.default_import
    = Normal Samples.star_import ∧
  transformFile "react-to-star-import" filepath Samples.named_import
    = Normal Samples.named_import ∧
  transformFile "react-to-star-import" filepath Samples.other_module
    = Normal Samples.other_module.
Proof.
  intros H1 H2 H3.
  rewrite (transformFile_registered _ _ _ H1), (transformFile_registered _ _ _ H2),
    (transformFile_registered _ _ _ H3).
  repeat split; f_equal; vm_compute; reflexivity.
Qed.

(** The pipeline under a transform that hands the tree back as it got it. *)
Lemma transformFile_unmutated codemodName codemod filepath source parsed :
  babel_parse source filepath = Normal parsed →
  get_codemod codemodName = Some codemod →
  call_codemod codemod parsed filepath source = Normal parsed →
  transformFile codemodName filepath source = Normal (Recast.normalizeEOL source).
Proof.
  intros Hparse Hget Hcall. unfold transformFile, Recast.parse.
  rewrite Hparse, Hget. simpl. rewrite Hcall. f_equal. apply print_unmutated.
Qed.

(** C2 (amended): a text the parser accepts, sent through the pipeline
    under a transform that mutates nothing, comes back with every line
    terminator written as a line feed, and is otherwise the same; a
    text without carriage return comes back byte for byte. *)
Theorem print_parse_identity
    (codemodName filepath source : string) (codemod : JsValue) (parsed : Program) :
  babel_parse source filepath = Normal parsed →
  get_codemod codemodName = Some codemod →
  call_codemod codemod parsed filepath source = Normal parsed →
  transformFile codemodName filepath source = Normal (Recast.normalizeEOL source) ∧
  (Recast.has_carriage_return source = false →
   transformFile codemodName filepath source = Normal source).
Proof.
  intros Hparse Hget Hcall.
  rewrite (transformFile_unmutated _ _ _ _ _ Hparse Hget Hcall).
  split; [done|]. intros Hclean. by rewrite normalizeEOL_without_carriage_return.
Qed.

(** The text the pipeline prints after the registered codemod. *)
Lemma transformFile_patch filepath source parsed :
  babel_parse source filepath = Normal parsed →
  transformFile "react-to-star-import" filepath source
  = Normal (Recast.normalizeEOL
              (Recast.patch source 0 (codemod_reprints source (body parsed)))).
Proof.
  intros Hparse. rewrite (transformFile_registered _ _ _ Hparse).
  unfold Recast.print, codemod; simpl. by rewrite find_array_reprints_codemod.
Qed.

(** C4 (amended): the printed text is the source with the spans of the
    import declarations in which the codemod replaced a specifier
    printed afresh, and with its line terminators written as line
    feeds; all the rest (the other statements, white space, comments)
    is the source's, byte for byte. *)
Theorem printed_differs_only_in_rewritten_declarations
    (filepath source printed : string) (parsed : Program) :
  babel_parse source filepath = Normal parsed →
  spans_in_order 0 (String.length source) (statement_loc <$> body parsed) →
  transformFile "react-to-star-import" filepath source = Normal printed →
  (∃ patched,
     differs_only_in source patched (rewritten_declaration_spans parsed) ∧
     printed = Recast.normalizeEOL patched) ∧
  (rewritten_declaration_spans parsed = [] → printed = Recast.normalizeEOL source).
Proof.
  intros Hparse Hspans Hprinted.
  rewrite (transformFile_patch _ _ _ Hparse) in Hprinted. injection Hprinted as <-.
  split.
  - eexists. split; [|reflexivity]. unfold differs_only_in.
    rewrite <- (codemod_reprints_spans source parsed).
    rewrite <- (substring_all source) at 1.
    rewrite <- (Nat.sub_0_r (String.length source)) at 1.
    apply patch_only_ranges. rewrite codemod_reprints_spans.
    by apply spans_in_order_filter.
  - unfold rewritten_declaration_spans, codemod_reprints.
    intros Hnone. apply fmap_nil_inv in Hnone. rewrite Hnone. by rewrite patch_nil.
Qed.

(** C8 (amended): after one application no import from "react" in the
    body holds a default specifier and a second application gives the
    same tree; and when the text printed by the pipeline parses again,
    into a tree without such a specifier, the pipeline run on that text
    prints it back unchanged. *)
Theorem codemod_idempotent
    (filepath source printed : string) (parsed reparsed : Program) :
  babel_parse source filepath = Normal parsed →
  transformFile "react-to-star-import" filepath source = Normal printed →
  babel_parse printed filepath = Normal reparsed →
  Forall (λ statement, has_default statement = false) (body reparsed) →
  Forall (λ statement, has_default statement = false)
    (body (codemod parsed filepath source)) ∧
  codemod (codemod parsed filepath source) filepath source = codemod parsed filepath source ∧
  transformFile "react-to-star-import" filepath printed = Normal printed.
Proof.
  intros Hparse Hprinted Hreparse Hquiet.
  split; [apply codemod_leaves_no_default|]. split; [apply codemod_twice|].
  rewrite (transformFile_patch _ _ _ Hparse) in Hprinted. injection Hprinted as <-.
  rewrite (transformFile_registered _ _ _ Hreparse).
  rewrite codemod_without_default by done.
  rewrite print_unmutated. by rewrite normalizeEOL_twice.
Qed.

End PipelineProperties.

(** ** The runner *)

Section RunnerLemmas.
Context `{Externals}.

Lemma error_lines_app (l1 l2 : list ConsoleLine) :
  error_lines (l1 ++ l2) = error_lines l1 ++ error_lines l2.
Proof. apply omap_app. Qed.

Lemma written_paths_app (l1 l2 : list IoEvent) :
  written_paths (l1 ++ l2) = written_paths l1 ++ written_paths l2.
Proof. apply omap_app. Qed.

Lemma file_result_ext codemodName (fs1 fs2 : gmap string string) file :
  fs1 !! file = fs2 !! file →
  file_result codemodName fs1 file = file_result codemodName fs2 file.
Proof. unfold file_result. by intros ->. Qed.

(** One turn of the loop that completes: the before and after texts are
    printed and the file is overwritten. *)
Lemma transform_one_normal codemodName file w source printed :
  files w !! file = Some source →
  transformFile codemodName file source = Normal printed →
  transform_one codemodName file w
  = (Normal tt,
     mkWorld (<[file := printed]> (files w))
       (console w ++ transform_one_lines file source printed)
       (io w ++ [ReadFile file; WriteFile file printed])).
Proof.
  intros Hread Htransform.
  unfold transform_one, transform_one_lines, bind, console_log, readFileSync, lift, writeFileSync.
  simpl. rewrite Hread. simpl. rewrite Htransform. simpl.
  by rewrite <- !app_assoc.
Qed.

(** One turn that throws: the file was read at most, and nothing was
    written or sent to [console.error]. *)
Lemma transform_one_throw codemodName file w err :
  file_result codemodName (files w) file = Throw err →
  ∃ printed_lines,
    transform_one codemodName file w
    = (Throw err, mkWorld (files w) (console w ++ printed_lines) (io w ++ [ReadFile file]))
    ∧ error_lines printed_lines = [].
Proof.
  unfold file_result. intros Hthrow.
  unfold transform_one, bind, console_log, readFileSync, lift. simpl.
  destruct (files w !! file) as [source|]; simpl.
  - rewrite Hthrow.
    exists [Log (chalk cyan (nl +:+ "Transforming:") +:+ " " +:+ file);
            Log (chalk magenta "--- Before: ---"); Log (trim source)].
    split; [|done]. by rewrite <- !app_assoc.
  - injection Hthrow as <-.
    exists [Log (chalk cyan (nl +:+ "Transforming:") +:+ " " +:+ file)]. done.
Qed.

Lemma file_result_normal codemodName fs file printed :
  file_result codemodName fs file = Normal printed →
  ∃ source, fs !! file = Some source ∧ transformFile codemodName file source = Normal printed.
Proof. unfold file_result. destruct (fs !! file) as [source|]; [eauto|done]. Qed.

(** The loop stops at the first file that throws. *)
Lemma for_of_fail_fast codemodName before failing after err w :
  NoDup (before ++ failing :: after) →
  Forall (λ file, ∃ printed, file_result codemodName (files w) file = Normal printed) before →
  file_result codemodName (files w) failing = Throw err →
  ∃ w', for_of (before ++ failing :: after) (transform_one codemodName) w = (Throw err, w') ∧
    (∀ file, file ∈ before →
       ∃ source printed, files w !! file = Some source ∧
         transformFile codemodName file source = Normal printed ∧
         files w' !! file = Some printed) ∧
    (∀ file, file ∉ before → files w' !! file = files w !! file) ∧
    written_paths (io w') = written_paths (io w) ++ before ∧
    error_lines (console w') = error_lines (console w).
Proof.
  revert w. induction before as [|first before IH]; intros w Hnodup Hbefore Hfailing.
  - destruct (transform_one_throw _ _ _ _ Hfailing) as (printed_lines & Hstep & Hlines).
    eexists. simpl. unfold bind. rewrite Hstep. split; [done|]. simpl.
    repeat split.
    + intros file Hin. by apply not_elem_of_nil in Hin.
    + rewrite written_paths_app. simpl. done.
    + rewrite error_lines_app, Hlines. by rewrite app_nil_r.
  - apply Forall_cons in Hbefore as [[printed Hfirst] Hbefore].
    destruct (file_result_normal _ _ _ _ Hfirst) as (source & Hread & Htransform).
    simpl in Hnodup. apply NoDup_cons in Hnodup as [Hfresh Hnodup].
    set (w1 := mkWorld (<[first := printed]> (files w))
                 (console w ++ transform_one_lines first source printed)
                 (io w ++ [ReadFile first; WriteFile first printed])).
    assert (Hother : ∀ file, file ≠ first → files w1 !! file = files w !! file).
    { intros file Hne. simpl. by rewrite lookup_insert_ne. }
    destruct (IH w1 Hnodup) as (w' & Hloop & Hwritten & Huntouched & Hpaths & Herrors).
    { apply Forall_forall. intros file Hin.
      destruct (proj1 (Forall_forall _ _) Hbefore file Hin) as [out Hout].
      exists out. rewrite <- Hout.
      apply file_result_ext, Hother. intros ->. apply Hfresh. set_solver. }
    { rewrite <- Hfailing. apply file_result_ext, Hother. intros ->. apply Hfresh. set_solver. }
    exists w'. simpl. unfold bind at 1.
    rewrite (transform_one_normal _ _ _ _ _ Hread Htransform). fold w1.
    split; [exact Hloop|]. repeat split.
    + intros file [->|Hin]%elem_of_cons.
      * exists source, printed. repeat split; [done..|].
        rewrite Huntouched by (intros Hin; apply Hfresh; set_solver).
        simpl. apply lookup_insert_eq.
      * destruct (Hwritten file Hin) as (source' & printed' & Hs & Ht & Hf).
        exists source', printed'. repeat split; [|done..].
        rewrite <- Hs. symmetry. apply Hother. intros ->. apply Hfresh. set_solver.
    + intros file Hnot. rewrite Huntouched by set_solver. apply Hother. set_solver.
    + rewrite Hpaths. simpl. rewrite written_paths_app. simpl. by rewrite <- app_assoc.
    + rewrite Herrors. simpl. rewrite error_lines_app.
      unfold transform_one_lines. simpl. by rewrite app_nil_r.
Qed.

Lemma error_lines_prelude glob found : error_lines (prelude glob found) = [].
Proof. unfold prelude. by case_decide. Qed.

(** [main] up to the loop. *)
Lemma main_unfold process_argv codemodName w :
  truthy (splice_1_1 process_argv !! 2) = Some codemodName →
  let glob := default default_glob (truthy (splice_1_1 process_argv !! 3)) in
  let found := globby_sync (files w) glob in
  main process_argv w
  = (for_of found (transform_one codemodName) ;; console_log (chalk green "All done!"))
      (mkWorld (files w) (console w ++ prelude glob found) (io w)).
Proof.
  intros Hname. unfold main. simpl. rewrite Hname.
  unfold bind at 1. unfold console_log at 1. simpl.
  unfold bind at 1. unfold console_log at 1. simpl.
  unfold bind at 1. simpl. unfold bind at 1. unfold console_log at 1. simpl.
  unfold bind at 1. unfold prelude.
  case_decide; simpl; unfold console_log, ret; simpl; by rewrite <- ?app_assoc.
Qed.

End RunnerLemmas.

Section RunnerProperties.
Context `{Externals}.

Lemma script_of_throw process_argv w err w1 :
  main process_argv w = (Throw err, w1) →
  script process_argv w
  = (Normal tt,
     mkWorld (files w1)
       (console w1 ++ [ErrorLine (chalk red "Codemod failed:"); ErrorLine (err_stack err)])
       (io w1)).
Proof.
  intros Hmain. unfold script, try_catch. rewrite Hmain.
  unfold bind, console_error. simpl. by rewrite <- app_assoc.
Qed.

Lemma script_of_normal process_argv w w1 :
  main process_argv w = (Normal tt, w1) → script process_argv w = (Normal tt, w1).
Proof. intros Hmain. unfold script, try_catch. by rewrite Hmain. Qed.

(** C3: when the file at some position throws, the files before it hold
    what was written to them, the failing file and the files after it
    are as they were, the files written are exactly the earlier ones, and
    one error is reported. *)
Theorem run_stops_at_the_first_failing_file (process_argv : list string) (w : World) (codemodName : string)
    (before after : list string) (failing : string) (err : JsError) :
  truthy (splice_1_1 process_argv !! 2) = Some codemodName →
  globby_sync (files w) (default default_glob (truthy (splice_1_1 process_argv !! 3)))
    = before ++ failing :: after →
  NoDup (before ++ failing :: after) →
  Forall (λ file, ∃ printed, file_result codemodName (files w) file = Normal printed) before →
  file_result codemodName (files w) failing = Throw err →
  ∃ w', script process_argv w = (Normal tt, w') ∧
    (∀ file, file ∈ before →
       ∃ source printed, files w !! file = Some source ∧
         transformFile codemodName file source = Normal printed ∧
         files w' !! file = Some printed) ∧
    files w' !! failing = files w !! failing ∧
    (∀ file, file ∈ after → files w' !! file = files w !! file) ∧
    written_paths (io w') = written_paths (io w) ++ before ∧
    error_lines (console w')
      = error_lines (console w) ++ [chalk red "Codemod failed:"; err_stack err].
Proof.
  intros Hname Hfound Hnodup Hbefore Hfailing.
  pose proof (main_unfold process_argv codemodName w Hname) as Hmain. simpl in Hmain.
  rewrite Hfound in Hmain.
  set (w0 := mkWorld (files w) (console w ++ prelude _ _) (io w)) in Hmain.
  destruct (for_of_fail_fast codemodName before failing after err w0 Hnodup Hbefore Hfailing)
    as (w1 & Hloop & Hwritten & Huntouched & Hpaths & Herrors).
  unfold bind in Hmain. rewrite Hloop in Hmain.
  eexists. split; [by apply script_of_throw|]. simpl.
  apply NoDup_app in Hnodup as (_ & Hdisjoint & Hrest).
  apply NoDup_cons in Hrest as [_ _].
  repeat split.
  - exact Hwritten.
  - apply Huntouched. intros Hin. apply (Hdisjoint _ Hin). set_solver.
  - intros file Hin. apply Huntouched. intros Hin'. apply (Hdisjoint _ Hin'). set_solver.
  - exact Hpaths.
  - rewrite error_lines_app, Herrors. unfold w0. simpl.
    by rewrite error_lines_app, error_lines_prelude, app_nil_r.
Qed.

Lemma bind_normal {A B} (m : M A) (k : A → M B) w b w' :
  bind m k w = (Normal b, w') → ∃ a w1, m w = (Normal a, w1) ∧ k a w1 = (Normal b, w').
Proof. unfold bind. destruct (m w) as [[a|err] w1]; [eauto|done]. Qed.

(** C5 (amended): an error thrown anywhere in [main] is caught at the
    top level and reported, the line "Codemod failed:" followed by its
    stack (name, message and trace); a run without error ends with the
    line "All done!"; in both cases the exit status is 0. *)
Theorem errors_are_reported_and_the_exit_status_is_zero
    (process_argv : list string) (w : World) :
  exit_status process_argv w = 0 ∧
  (∀ err w1, main process_argv w = (Throw err, w1) →
     script process_argv w
     = (Normal tt,
        mkWorld (files w1)
          (console w1 ++ [ErrorLine (chalk red "Codemod failed:");
                          ErrorLine (err_name err +:+ ": " +:+ err_message err +:+ err_trace err)])
          (io w1))) ∧
  (∀ w1, main process_argv w = (Normal tt, w1) →
     script process_argv w = (Normal tt, w1) ∧
     last (console w1) = Some (Log (chalk green "All done!"))).
Proof.
  split; [|split].
  - unfold exit_status. destruct (main process_argv w) as [[[]|err] w1] eqn:Hmain.
    + by rewrite (script_of_normal _ _ _ Hmain).
    + by rewrite (script_of_throw _ _ _ _ Hmain).
  - intros err w1 Hmain. by apply script_of_throw.
  - intros w1 Hmain. split; [by apply script_of_normal|].
    destruct (truthy (splice_1_1 process_argv !! 2)) as [codemodName|] eqn:Hname.
    + rewrite (main_unfold _ _ _ Hname) in Hmain.
      apply bind_normal in Hmain as ([] & w2 & _ & Hdone).
      unfold console_log in Hdone. injection Hdone as <-. simpl. apply last_snoc.
    + unfold main in Hmain. simpl in Hmain. rewrite Hname in Hmain.
      unfold bind, console_log, throw in Hmain. done.
Qed.

Lemma unknown_codemod_throws codemodName fs file :
  get_codemod codemodName = None →
  file_result codemodName fs file = Throw (unknown_codemod_failure codemodName fs file).
Proof.
  intros Hnone. unfold file_result, unknown_codemod_failure, transformFile, Recast.parse.
  destruct (fs !! file) as [source|]; [|done].
  destruct (babel_parse source file); [|done]. by rewrite Hnone.
Qed.

(** C6 (amended): with a name that [codemods[name]] does not resolve no
    file is ever written, but the name is looked up for each file after
    the file was read and parsed: the first file found is read, the
    error reported is that file's read or parse error if it has one and
    the unknown-codemod error otherwise, and a run that finds no file
    reports no error at all. *)
Theorem unknown_codemod_is_met_after_read_and_parse
    (process_argv : list string) (w : World) (codemodName : string) :
  truthy (splice_1_1 process_argv !! 2) = Some codemodName →
  get_codemod codemodName = None →
  ∃ w', script process_argv w = (Normal tt, w') ∧
    files w' = files w ∧
    match globby_sync (files w) (default default_glob (truthy (splice_1_1 process_argv !! 3))) with
    | [] => io w' = io w ∧ error_lines (console w') = error_lines (console w)
    | first :: _ =>
        io w' = io w ++ [ReadFile first] ∧
        error_lines (console w')
        = error_lines (console w)
          ++ [chalk red "Codemod failed:";
              err_stack (unknown_codemod_failure codemodName (files w) first)]
    end.
Proof.
  intros Hname Hnone.
  pose proof (main_unfold process_argv codemodName w Hname) as Hmain. simpl in Hmain.
  destruct (globby_sync _ _) as [|first rest] eqn:Hfound.
  - eexists. split; [apply script_of_normal; rewrite Hmain; reflexivity|]. simpl.
    repeat split. rewrite !error_lines_app, error_lines_prelude. simpl.
    by rewrite ?app_nil_r.
  - set (w0 := mkWorld (files w) (console w ++ prelude _ _) (io w)) in Hmain.
    destruct (transform_one_throw codemodName first w0 _
                (unknown_codemod_throws codemodName (files w) first Hnone))
      as (printed_lines & Hstep & Hlines).
    simpl in Hmain. unfold bind in Hmain. rewrite Hstep in Hmain.
    eexists. split; [by apply script_of_throw|]. simpl. repeat split.
    rewrite !error_lines_app, error_lines_prelude, Hlines. simpl.
    by rewrite ?app_nil_r.
Qed.

Lemma main_reads_two_arguments (argv1 argv2 : list string) :
  splice_1_1 argv1 !! 2 = splice_1_1 argv2 !! 2 →
  splice_1_1 argv1 !! 3 = splice_1_1 argv2 !! 3 →
  main argv1 = main argv2.
Proof. intros H2 H3. unfold main. simpl. by rewrite H2, H3. Qed.

Lemma splice_1_1_lookup (argv : list string) (i : nat) :
  0 < i → splice_1_1 argv !! i = argv !! S i.
Proof.
  intros Hi. unfold splice_1_1.
  destruct argv as [|a0 [|a1 rest]]; simpl.
  - done.
  - destruct i; [lia|done].
  - destruct i; [lia|]. simpl. by rewrite drop_0.
Qed.

(** C7 (amended): the runner has no dry-run option.  Every turn of the
    loop that completes prints the before and after texts and overwrites
    the file with the printed text; the command line is read at the
    codemod name and the glob only, so nothing passed after them changes
    the run. *)
Theorem every_completed_file_is_reported_and_overwritten
    (codemodName file source printed : string) (w : World)
    (process_argv extra : list string) :
  files w !! file = Some source →
  transformFile codemodName file source = Normal printed →
  5 ≤ length process_argv →
  transform_one codemodName file w
  = (Normal tt,
     mkWorld (<[file := printed]> (files w))
       (console w ++
          [ Log (chalk cyan (nl +:+ "Transforming:") +:+ " " +:+ file);
            Log (chalk magenta "--- Before: ---"); Log (trim source);
            Log (chalk magenta "--- After: ---"); Log (trim printed);
            Log (chalk magenta ("------" +:+ nl)) ])
       (io w ++ [ReadFile file; WriteFile file printed])) ∧
  script (process_argv ++ extra) w = script process_argv w.
Proof.
  intros Hread Htransform Hlen. split.
  - by apply transform_one_normal.
  - unfold script. f_equal.
    apply main_reads_two_arguments; rewrite !splice_1_1_lookup by lia;
      apply lookup_app_l; lia.
Qed.

(** C9, at the name "toString": it is not a key of the registry, yet the
    lookup finds [Object.prototype.toString], no error is raised, and the
    text is printed back, its line terminators written as line feeds (so
    as it was, when it holds no carriage return). *)
Theorem toString_passes_the_lookup (filepath source : string) (parsed : Program) :
  babel_parse source filepath = Normal parsed →
  ("toString" ∉ Object_keys) ∧
  get_codemod "toString" = Some (PrototypeMember "toString") ∧
  transformFile "toString" filepath source = Normal (Recast.normalizeEOL source) ∧
  (Recast.has_carriage_return source = false →
   transformFile "toString" filepath source = Normal source).
Proof.
  intros Hparse.
  assert (Hrun : transformFile "toString" filepath source
                 = Normal (Recast.normalizeEOL source)).
  { unfold transformFile, Recast.parse. rewrite Hparse. simpl.
    f_equal. apply print_unmutated. }
  split; [|split; [|split]].
  - unfold Object_keys. simpl. by intros [=]%list_elem_of_singleton.
  - done.
  - exact Hrun.
  - intros Hclean. by rewrite Hrun, normalizeEOL_without_carriage_return.
Qed.

(** A name that resolves to nothing is refused with a message that names
    it and lists the keys of the registry. *)
Lemma unresolved_name_is_refused (codemodName filepath source : string) (parsed : Program) :
  babel_parse source filepath = Normal parsed →
  get_codemod codemodName = None →
  transformFile codemodName filepath source
  = Throw (new_Error "transformFile"
             ("No such codemod: " +:+ codemodName
              +:+ ". Valid codemod names: react-to-star-import.")).
Proof.
  intros Hparse Hnone. unfold transformFile, Recast.parse. by rewrite Hparse, Hnone.
Qed.

(** A run without a codemod name is refused before any file is looked for. *)
Lemma missing_name_is_refused (process_argv : list string) (w : World) :
  truthy (splice_1_1 process_argv !! 2) = None →
  main process_argv w
  = (Throw (new_Error "main"
              ("You must specify a codemod to run as the first command-line argument. "
               +:+ "Valid codemod names: react-to-star-import.")),
     mkWorld (files w)
       (console w ++ [Log (chalk green (nl +:+ nl +:+ "--- Starting codemod run. ---"))])
       (io w)).
Proof. intros Hname. unfold main. simpl. by rewrite Hname. Qed.

End RunnerProperties.

(** ** Runs on the sample inputs *)

Section SampleRuns.
Import ReactToStarImport Samples.
Local Existing Instance Mini.externals.

Lemma codemod_replaces_default_specifiers_in_place_witness :
  body (codemod default_import_ast "src/a.js" default_import) !! 0
  = Some (ImportDeclaration
            [ImportNamespaceSpecifier (mkIdentifier "React" (mkLoc 7 12)) None]
            (StringLiteral "react" (quoted "react") (mkLoc 18 25)) (mkLoc 0 26)).
Proof.
  destruct (codemod_replaces_default_specifiers_in_place
              default_import_ast "src/a.js" default_import 0 _ eq_refl)
    as (_ & statement' & Hlookup & Hreact & _).
  destruct (Hreact eq_refl) as (specifiers & literal & loc & specifiers' & Hold & -> & _ & Hmap).
  injection Hold as <- <- <-.
  rewrite Hlookup. f_equal.
  pose proof (Hmap 0 _ eq_refl) as Hfirst.
  destruct specifiers' as [|first [|second rest]]; [done| |done].
  injection Hfirst as ->. done.
Defined.

Lemma react_to_star_import_scenarios_witness :
  transformFile "react-to-star-import" "src/a.js" default_import = Normal star_import ∧
  transformFile "react-to-star-import" "src/a.js" named_import = Normal named_import ∧
  transformFile "react-to-star-import" "src/a.js" other_module = Normal other_module.
Proof.
  apply (react_to_star_import_scenarios "src/a.js"); vm_compute; reflexivity.
Defined.

Lemma print_parse_identity_witness :
  transformFile "react-to-star-import" "src/a.js" MoreSamples.quiet_text
    = Normal MoreSamples.quiet_text ∧
  transformFile "react-to-star-import" "src/a.js" MoreSamples.crlf_text
    = Normal MoreSamples.lf_text.
Proof.
  split.
  - edestruct (print_parse_identity "react-to-star-import" "src/a.js" MoreSamples.quiet_text)
      as [_ Hsame].
    + vm_compute. reflexivity.
    + vm_compute. reflexivity.
    + vm_compute. reflexivity.
    + apply Hsame. vm_compute. reflexivity.
  - edestruct (print_parse_identity "react-to-star-import" "src/a.js" MoreSamples.crlf_text)
      as [Hlines _].
    + vm_compute. reflexivity.
    + vm_compute. reflexivity.
    + vm_compute. reflexivity.
    + rewrite Hlines. vm_compute. reflexivity.
Defined.

(** C2, as stated, fails on a text with CR LF line ends: parsed and
    printed with nothing applied, it comes back with LF line ends. *)
Lemma round_trip_rewrites_carriage_returns :
  ∃ ast,
    Recast.parse (λ source, babel_parse source "src/a.js") MoreSamples.crlf_text = Normal ast ∧
    Recast.print ast = MoreSamples.lf_text ∧
    Recast.print ast ≠ MoreSamples.crlf_text ∧
    transformFile "react-to-star-import" "src/a.js" MoreSamples.crlf_text
      = Normal MoreSamples.lf_text.
Proof.
  eexists. split; [vm_compute; reflexivity|].
  split; [vm_compute; reflexivity|].
  split; [vm_compute; discriminate|vm_compute; reflexivity].
Qed.

(** C4, as stated, fails on a default import written with two spaces
    after the keyword: the declaration is printed afresh, so the text
    changes before the span of the specifier that was replaced. *)
Lemma printed_differs_outside_the_replaced_specifier :
  transformFile "react-to-star-import" "src/a.js" two_spaces
    = Normal "import * as React from 'react';" ∧
  (∃ parsed, babel_parse two_spaces "src/a.js" = Normal parsed ∧
     replaced_specifier_spans parsed = [mkLoc 8 13]) ∧
  ¬ differs_only_in two_spaces "import * as React from 'react';" [mkLoc 8 13].
Proof.
  split; [vm_compute; reflexivity|]. split.
  { eexists. split; [vm_compute; reflexivity|]. vm_compute. reflexivity. }
  unfold differs_only_in. intros Hdiffers.
  inversion Hdiffers
    as [|pos kept old rest new printed loc ranges Hstart Hend Hrest Hpos Htext Hranges Hprinted].
  simpl in Hstart. symmetry in Hstart.
  pose proof (prefix_determined _ _ _ _ Htext Hstart) as Hkept.
  pose proof (prefix_determined _ _ _ _ Hprinted Hstart) as Hkept'.
  rewrite Hkept in Hkept'. vm_compute in Hkept'. discriminate Hkept'.
Qed.

Lemma printed_differs_only_in_rewritten_declarations_witness :
  ∃ parsed printed,
    babel_parse untidy "src/a.js" = Normal parsed ∧
    transformFile "react-to-star-import" "src/a.js" untidy = Normal printed ∧
    rewritten_declaration_spans parsed = [mkLoc 18 72] ∧
    ∃ patched,
      differs_only_in untidy patched (rewritten_declaration_spans parsed) ∧
      printed = Recast.normalizeEOL patched.
Proof.
  eexists _, _. split; [vm_compute; reflexivity|]. split; [vm_compute; reflexivity|].
  split; [reflexivity|].
  refine (proj1 (printed_differs_only_in_rewritten_declarations "src/a.js" untidy _ _ _ _ _)).
  - vm_compute. reflexivity.
  - vm_compute. repeat split; lia.
  - vm_compute. reflexivity.
Defined.

Lemma codemod_idempotent_witness :
  transformFile "react-to-star-import" "src/a.js" default_import = Normal star_import ∧
  transformFile "react-to-star-import" "src/a.js" star_import = Normal star_import.
Proof.
  split; [vm_compute; reflexivity|].
  edestruct (codemod_idempotent "src/a.js" default_import star_import) as (_ & _ & Hagain).
  - vm_compute. reflexivity.
  - vm_compute. reflexivity.
  - vm_compute. reflexivity.
  - constructor; [vm_compute; reflexivity|constructor].
  - exact Hagain.
Defined.

(** C8, as stated, fails on a default import followed by a named one:
    the text the pipeline prints for it is not accepted by the parser,
    so the pipeline run on its own output throws. *)
Lemma pipeline_fails_on_its_own_output :
  transformFile "react-to-star-import" "src/a.js" MoreSamples.mixed_import
    = Normal MoreSamples.mixed_star_import ∧
  transformFile "react-to-star-import" "src/a.js" MoreSamples.mixed_star_import
    = Throw (mkJsError "SyntaxError" "Unexpected token in src/a.js" EmptyString).
Proof. split; vm_compute; reflexivity. Qed.

Lemma run_stops_at_the_first_failing_file_witness :
  ∃ w', script three_files_argv three_files = (Normal tt, w') ∧
    files w' !! "src/a.js" = Some star_import ∧
    files w' !! "src/b.js" = Some broken ∧
    files w' !! "src/c.js" = Some default_import ∧
    written_paths (io w') = ["src/a.js"] ∧
    error_lines (console w') = ["Codemod failed:"; "SyntaxError: Unexpected token in src/b.js"].
Proof.
  destruct (run_stops_at_the_first_failing_file three_files_argv three_files "react-to-star-import"
              ["src/a.js"] ["src/c.js"] "src/b.js"
              (mkJsError "SyntaxError" "Unexpected token in src/b.js" EmptyString))
    as (w' & Hscript & Hbefore & Hfailing & Hafter & Hpaths & Herrors).
  - reflexivity.
  - vm_compute; reflexivity.
  - apply (bool_decide_unpack (NoDup _)); vm_compute; exact I.
  - repeat constructor; eexists; vm_compute; reflexivity.
  - vm_compute; reflexivity.
  - exists w'. split; [exact Hscript|].
    destruct (Hbefore "src/a.js" (list_elem_of_here _ _))
      as (source & printed & Hsource & Hprinted & Hfile).
    assert (Hread : files three_files !! "src/a.js" = Some default_import)
      by (vm_compute; reflexivity).
    rewrite Hread in Hsource. injection Hsource as <-.
    assert (Hstar : transformFile "react-to-star-import" "src/a.js" default_import
                    = Normal star_import) by (vm_compute; reflexivity).
    rewrite Hstar in Hprinted. injection Hprinted as <-.
    split; [exact Hfile|].
    split; [rewrite Hfailing; vm_compute; reflexivity|].
    split; [rewrite (Hafter "src/c.js" (list_elem_of_here _ _)); vm_compute; reflexivity|].
    split; [rewrite Hpaths|rewrite Herrors]; vm_compute; reflexivity.
Defined.

(** C5, as stated, fails on the run over the three files: [main] throws
    at the second file, the error is reported, and the exit status is 0. *)
Lemma failed_run_exits_with_status_zero :
  (main three_files_argv three_files).1
    = Throw (mkJsError "SyntaxError" "Unexpected token in src/b.js" EmptyString) ∧
  error_lines (console (script three_files_argv three_files).2)
    = ["Codemod failed:"; "SyntaxError: Unexpected token in src/b.js"] ∧
  exit_status three_files_argv three_files = 0 ∧
  ¬ exit_status three_files_argv three_files ≠ 0.
Proof.
  split; [vm_compute; reflexivity|]. split; [vm_compute; reflexivity|].
  split; [vm_compute; reflexivity|]. intros Hnonzero. apply Hnonzero. vm_compute. reflexivity.
Qed.

Lemma errors_are_reported_and_the_exit_status_is_zero_witness :
  exit_status three_files_argv three_files = 0 ∧
  error_lines (console (script three_files_argv three_files).2)
    = ["Codemod failed:"; "SyntaxError: Unexpected token in src/b.js"] ∧
  last (console (script one_file_argv one_file).2) = Some (Log "All done!").
Proof.
  destruct (errors_are_reported_and_the_exit_status_is_zero three_files_argv three_files)
    as (Hexit & Hthrow & _).
  destruct (errors_are_reported_and_the_exit_status_is_zero one_file_argv one_file)
    as (_ & _ & Hnormal).
  split; [exact Hexit|]. split.
  - assert (Hmain : main three_files_argv three_files
                    = (Throw (mkJsError "SyntaxError" "Unexpected token in src/b.js" EmptyString),
                       (main three_files_argv three_files).2))
      by (vm_compute; reflexivity).
    rewrite (Hthrow _ _ Hmain). vm_compute. reflexivity.
  - assert (Hmain : main one_file_argv one_file
                    = (Normal tt, (main one_file_argv one_file).2))
      by (vm_compute; reflexivity).
    rewrite (proj1 (Hnormal _ Hmain)). vm_compute. reflexivity.
Defined.

(** C6, as stated, fails on a run with an unknown name over a file that
    does not parse: the file is read and parsed first, and the error
    reported is the parse error. *)
Lemma unknown_codemod_reads_and_parses_the_first_file :
  get_codemod "no-such-codemod" = None ∧
  io (script unknown_argv one_broken_file).2 = [ReadFile "src/a.js"] ∧
  error_lines (console (script unknown_argv one_broken_file).2)
    = ["Codemod failed:"; "SyntaxError: Unexpected token in src/a.js"] ∧
  error_lines (console (script unknown_argv one_broken_file).2)
    ≠ ["Codemod failed:";
       err_stack (new_Error "transformFile" (no_such_codemod "no-such-codemod"))].
Proof.
  split; [vm_compute; reflexivity|]. split; [vm_compute; reflexivity|].
  split; [vm_compute; reflexivity|]. vm_compute. discriminate.
Qed.

Lemma unknown_codemod_is_met_after_read_and_parse_witness :
  ∃ w', script unknown_argv one_file = (Normal tt, w') ∧
    files w' = files one_file ∧
    io w' = [ReadFile "src/a.js"] ∧
    error_lines (console w')
    = ["Codemod failed:";
       "Error: No such codemod: no-such-codemod. Valid codemod names: react-to-star-import."
       +:+ nl +:+ "    at transformFile"].
Proof.
  destruct (unknown_codemod_is_met_after_read_and_parse unknown_argv one_file "no-such-codemod")
    as (w' & Hscript & Hfiles & Hrest).
  - reflexivity.
  - vm_compute. reflexivity.
  - exists w'. split; [exact Hscript|]. split; [exact Hfiles|].
    assert (Hfound : globby_sync (files one_file)
                       (default default_glob (truthy (splice_1_1 unknown_argv !! 3)))
                     = ["src/a.js"]) by (vm_compute; reflexivity).
    rewrite Hfound in Hrest. destruct Hrest as [Hio Herrors].
    split; [rewrite Hio|rewrite Herrors]; vm_compute; reflexivity.
Defined.

(** C7, as stated, fails on a run that asks for a dry run: the argument
    is not read, and the file is overwritten. *)
Lemma dry_run_argument_does_not_prevent_the_write :
  files one_file !! "src/a.js" = Some default_import ∧
  files (script dry_run_argv one_file).2 !! "src/a.js" = Some star_import ∧
  io (script dry_run_argv one_file).2
    = [ReadFile "src/a.js"; WriteFile "src/a.js" star_import].
Proof. repeat split; vm_compute; reflexivity. Qed.

Lemma every_completed_file_is_reported_and_overwritten_witness :
  files (transform_one "react-to-star-import" "src/a.js" one_file).2 !! "src/a.js"
    = Some star_import ∧
  script (one_file_argv ++ ["--dry-run"]) one_file = script one_file_argv one_file.
Proof.
  destruct (every_completed_file_is_reported_and_overwritten
              "react-to-star-import" "src/a.js" default_import star_import one_file
              one_file_argv ["--dry-run"]) as [Hone Hsame].
  - vm_compute. reflexivity.
  - vm_compute. reflexivity.
  - vm_compute. lia.
  - split; [|exact Hsame]. rewrite Hone. vm_compute. reflexivity.
Defined.

Lemma toString_passes_the_lookup_witness :
  ("toString" ∉ Object_keys) ∧
  get_codemod "toString" = Some (PrototypeMember "toString") ∧
  transformFile "toString" "src/a.js" default_import = Normal default_import.
Proof.
  destruct (toString_passes_the_lookup "src/a.js" default_import default_import_ast)
    as (Hkey & Hget & _ & Hsame).
  - vm_compute. reflexivity.
  - split; [exact Hkey|]. split; [exact Hget|]. apply Hsame. vm_compute. reflexivity.
Defined.

(** The whole run under the name "toString": the file is rewritten with
    its own text and the run ends with "All done!", without an error. *)
Lemma run_under_toString :
  io (script (argv ["toString"; "src/a.js"]) one_file).2
    = [ReadFile "src/a.js"; WriteFile "src/a.js" default_import] ∧
  error_lines (console (script (argv ["toString"; "src/a.js"]) one_file).2) = [] ∧
  last (console (script (argv ["toString"; "src/a.js"]) one_file).2) = Some (Log "All done!").
Proof. repeat split; vm_compute; reflexivity. Qed.

End SampleRuns.

(** * Further properties *)

(** ** The codemod *)

Section MoreCodemodProperties.
Import ReactToStarImport.

Lemma fmap_visit_fixed statements :
  visit_statement <$> statements = statements ↔
  Forall (λ statement, has_default statement = false) statements.
Proof.
  induction statements as [|statement rest IH]; csimpl.
  - split; [constructor|done].
  - split.
    + intros [= Hhead Hrest]. constructor; [|by apply IH].
      destruct (has_default statement) eqn:E; [|done].
      by apply visit_statement_changed in E.
    + intros [Hhead Hrest]%Forall_cons.
      rewrite visit_statement_unchanged by done. f_equal. by apply IH.
Qed.

(** X1: the codemod returns the tree it was given exactly when no import
    from "react" holds a default specifier. *)
Theorem codemod_changes_exactly_the_default_imports (ast : Program) (filepath source : string) :
  codemod ast filepath source = ast ↔
  Forall (λ statement, has_default statement = false) (body ast).
Proof.
  destruct ast as [statements]. unfold codemod; simpl. rewrite <- fmap_visit_fixed.
  split; [by intros [=]|by intros ->].
Qed.

Lemma visit_statement_source statement :
  statement_source (visit_statement statement) = statement_source statement.
Proof.
  destruct statement as [specifiers [value raw sloc|value raw sloc] loc|]; simpl; try done.
  by destruct (String.eqb value "react").
Qed.

Lemma to_namespace_local specifier :
  specifier_local (to_namespace specifier) = specifier_local specifier.
Proof. by destruct specifier. Qed.

(** X2: the codemod renames nothing and moves nothing: every statement keeps
    its position in the body, its span, the source literal of the module
    it imports from and, specifier by specifier, the local identifier it
    binds. *)
Theorem codemod_keeps_the_bindings
    (ast : Program) (filepath source : string) (k : nat) (statement : Statement) :
  body ast !! k = Some statement →
  ∃ statement', body (codemod ast filepath source) !! k = Some statement' ∧
    specifier_local <$> statement_specifiers statement'
      = specifier_local <$> statement_specifiers statement ∧
    statement_loc statement' = statement_loc statement ∧
    statement_source statement' = statement_source statement ∧
    is_react_import statement' = is_react_import statement.
Proof.
  intros Hk. exists (visit_statement statement). split.
  { unfold codemod; simpl. by rewrite list_lookup_fmap, Hk. }
  split; [|split; [apply visit_statement_loc|
                   split; [apply visit_statement_source|apply visit_statement_react]]].
  rewrite visit_statement_spec.
  destruct statement as [specifiers literal loc|]; [|done].
  destruct (is_react_import _); [|done]. simpl.
  rewrite <- list_fmap_compose. apply list_fmap_ext.
  intros ? specifier _. apply to_namespace_local.
Qed.

End MoreCodemodProperties.

(** ** The pipeline on one file *)

Section MorePipelineProperties.
Context `{Externals}.

Lemma get_codemod_unresolved (codemodName : string) :
  get_codemod codemodName = None ↔
  (codemodName ∉ Object_keys) ∧ (codemodName ∉ Object_prototype_members).
Proof.
  unfold get_codemod, Object_keys. simpl.
  case_decide as Hkey; simpl.
  - subst. split; [done|]. intros [Hnot _]. exfalso. apply Hnot. apply list_elem_of_here.
  - case_decide as Hmember.
    + split; [done|]. by intros [_ Hnot].
    + split; [|done]. intros _. split; [|done].
      intros Hin%list_elem_of_singleton. by subst.
Qed.

(** X3: a name that is neither a key of the registry nor a member of
    [Object.prototype] is refused, for every text the parser accepts,
    with a message that names it and lists the registered names. *)
Theorem unregistered_name_is_refused_with_the_list_of_names
    (codemodName filepath source : string) (parsed : Program) :
  codemodName ≠ "react-to-star-import" →
  codemodName ∉ Object_prototype_members →
  babel_parse source filepath = Normal parsed →
  ∃ err, transformFile codemodName filepath source = Throw err ∧
    err_name err = "Error" ∧
    err_message err
    = "No such codemod: " +:+ codemodName +:+ ". Valid codemod names: react-to-star-import.".
Proof.
  intros Hname Hmember Hparse.
  assert (Hnone : get_codemod codemodName = None).
  { apply get_codemod_unresolved. split; [|done].
    unfold Object_keys. simpl. intros Hin%list_elem_of_singleton. by subst. }
  eexists. split.
  - unfold transformFile, Recast.parse. rewrite Hparse, Hnone. reflexivity.
  - done.
Qed.


(** X5: a member of [Object.prototype] other than [toString] and
    [constructor], given as the codemod name, passes the guard and is
    called: the call throws a [TypeError], so the run fails at the first
    file with that error and not with the unknown-codemod one. *)
Theorem inherited_member_fails_with_a_TypeError
    (codemodName filepath source : string) (parsed : Program) :
  codemodName ∈ Object_prototype_members →
  codemodName ≠ "toString" → codemodName ≠ "constructor" →
  babel_parse source filepath = Normal parsed →
  ∃ err, transformFile codemodName filepath source = Throw err ∧ err_name err = "TypeError".
Proof.
  intros Hmember Hts Hctor Hparse.
  assert (Hget : get_codemod codemodName = Some (PrototypeMember codemodName)).
  { unfold get_codemod. simpl. case_decide as Hkey.
    - subst. exfalso. revert Hmember. unfold Object_prototype_members.
      rewrite !elem_of_cons, elem_of_nil. intros Hcases.
      repeat (destruct Hcases as [Hcase|Hcases]; [discriminate Hcase|]). done.
    - by rewrite decide_True. }
  unfold transformFile, Recast.parse. rewrite Hparse, Hget. simpl.
  rewrite decide_False by (intros [?|?]; done).
  case_decide; eexists; done.
Qed.

End MorePipelineProperties.

(** ** Whole runs *)

Section MoreRunnerLemmas.
Context `{Externals}.

Lemma read_paths_app (l1 l2 : list IoEvent) :
  read_paths (l1 ++ l2) = read_paths l1 ++ read_paths l2.
Proof. apply omap_app. Qed.

(** One turn of the loop either completes, having overwritten its file,
    or throws, having written nothing. *)
Lemma transform_one_cases codemodName file w :
  (∃ source printed,
     files w !! file = Some source ∧
     transformFile codemodName file source = Normal printed ∧
     transform_one codemodName file w
     = (Normal tt,
        mkWorld (<[file := printed]> (files w))
          (console w ++ transform_one_lines file source printed)
          (io w ++ [ReadFile file; WriteFile file printed]))) ∨
  (∃ err printed_lines,
     file_result codemodName (files w) file = Throw err ∧
     transform_one codemodName file w
     = (Throw err, mkWorld (files w) (console w ++ printed_lines) (io w ++ [ReadFile file])) ∧
     error_lines printed_lines = []).
Proof.
  destruct (file_result codemodName (files w) file) as [printed|err] eqn:Hresult.
  - left. destruct (file_result_normal _ _ _ _ Hresult) as (source & Hread & Htransform).
    exists source, printed. repeat split; [done..|]. by apply transform_one_normal.
  - right. destruct (transform_one_throw _ _ _ _ Hresult) as (printed_lines & Hstep & Hlines).
    by exists err, printed_lines.
Qed.

(** Whatever the loop meets, it writes a prefix of the files it was
    given, reads that prefix and, when it throws, the file it threw at;
    files outside the list are not touched and no file goes away. *)
Lemma for_of_frame codemodName found w result w' :
  for_of found (transform_one codemodName) w = (result, w') →
  (∀ path, path ∉ found → files w' !! path = files w !! path) ∧
  (∀ path, is_Some (files w !! path) → is_Some (files w' !! path)) ∧
  error_lines (console w') = error_lines (console w) ∧
  ∃ n, n ≤ length found ∧
    written_paths (io w') = written_paths (io w) ++ take n found ∧
    read_paths (io w')
      = read_paths (io w) ++ take (match result with Normal _ => n | Throw _ => S n end) found ∧
    match result with Normal _ => n = length found | Throw _ => n < length found end.
Proof.
  revert w. induction found as [|file rest IH]; intros w Hloop; simpl in Hloop.
  - injection Hloop as <- <-. repeat split; [done..|].
    exists 0. simpl. by rewrite !app_nil_r.
  - unfold bind in Hloop.
    destruct (transform_one_cases codemodName file w)
      as [(source & printed & Hread & Htransform & Hstep)
         |(err & printed_lines & Hresult & Hstep & Hlines)];
      rewrite Hstep in Hloop.
    + destruct (IH _ Hloop) as (Houtside & Hkept & Herrors & n & Hn & Hwritten & Hreads & Hend).
      simpl in *. repeat split.
      * intros path [Hne Hnot]%not_elem_of_cons. rewrite Houtside by done.
        by apply lookup_insert_ne.
      * intros path Hsome. apply Hkept.
        destruct (decide (file = path)) as [->|Hne];
          [rewrite lookup_insert_eq; eauto|by rewrite lookup_insert_ne].
      * rewrite Herrors, error_lines_app. unfold transform_one_lines. simpl.
        by rewrite app_nil_r.
      * exists (S n). split; [lia|].
        rewrite Hwritten, Hreads, written_paths_app, read_paths_app. simpl.
        rewrite <- !app_assoc. simpl. repeat split; [|by destruct result; simpl; lia].
        by destruct result.
    + injection Hloop as <- <-. simpl. repeat split; [done..| |].
      * by rewrite error_lines_app, Hlines, app_nil_r.
      * exists 0. simpl. rewrite written_paths_app, read_paths_app. simpl.
        rewrite app_nil_r. repeat split; [lia|lia].
Qed.

Lemma printed_text_ext codemodName (fs1 fs2 : gmap string string) file :
  fs1 !! file = fs2 !! file →
  printed_text codemodName fs1 file = printed_text codemodName fs2 file.
Proof. intros Heq. unfold printed_text. by rewrite (file_result_ext _ _ _ _ Heq). Qed.

(** The loop over distinct files that all complete, in full. *)
Lemma for_of_all_normal codemodName fs found w :
  NoDup found →
  (∀ file, file ∈ found → files w !! file = fs !! file) →
  Forall (λ file, ∃ printed, file_result codemodName fs file = Normal printed) found →
  for_of found (transform_one codemodName) w
  = (Normal tt,
     mkWorld (foldl (λ acc file, <[file := printed_text codemodName fs file]> acc) (files w) found)
       (console w ++ run_lines codemodName fs found)
       (io w ++ run_events codemodName fs found)).
Proof.
  revert w. induction found as [|file rest IH]; intros w Hnodup Hsame Hall.
  - simpl. unfold ret, run_lines, run_events. simpl. rewrite !app_nil_r. by destruct w.
  - apply NoDup_cons in Hnodup as [Hfresh Hnodup].
    apply Forall_cons in Hall as [[printed Hfile] Hall].
    destruct (file_result_normal _ _ _ _ Hfile) as (source & Hread & Htransform).
    assert (Hprinted : printed_text codemodName fs file = printed)
      by (unfold printed_text; by rewrite Hfile).
    assert (Hsource : source_text fs file = source)
      by (unfold source_text; by rewrite Hread).
    simpl. unfold bind at 1.
    rewrite (transform_one_normal codemodName file w source printed)
      by (by rewrite ?Hsame by apply list_elem_of_here).
    rewrite IH; [|done| |done].
    + simpl. unfold run_lines, run_events. csimpl.
      rewrite Hprinted, Hsource, <- !app_assoc. done.
    + intros other Hin. simpl. rewrite lookup_insert_ne by (intros ->; done).
      apply Hsame. by apply list_elem_of_further.
Qed.

Lemma lookup_foldl_insert_not_in {A} (value : string → A) (found : list string)
    (fs : gmap string A) (path : string) :
  path ∉ found →
  foldl (λ acc file, <[file := value file]> acc) fs found !! path = fs !! path.
Proof.
  revert fs. induction found as [|file rest IH]; intros fs Hnot; simpl; [done|].
  apply not_elem_of_cons in Hnot as [Hne Hnot].
  rewrite IH by done. by apply lookup_insert_ne.
Qed.

Lemma lookup_foldl_insert_in {A} (value : string → A) (found : list string)
    (fs : gmap string A) (path : string) :
  path ∈ found →
  foldl (λ acc file, <[file := value file]> acc) fs found !! path = Some (value path).
Proof.
  revert fs. induction found as [|file rest IH]; intros fs Hin; simpl.
  - by apply elem_of_nil in Hin.
  - destruct (decide (path ∈ rest)) as [Hrest|Hrest]; [by apply IH|].
    apply elem_of_cons in Hin as [->|Hin]; [|done].
    rewrite lookup_foldl_insert_not_in by done. apply lookup_insert_eq.
Qed.

(** [main] depends on the command line through the codemod name and
    the glob only. *)
Lemma main_depends_on_name_and_glob (argv1 argv2 : list string) :
  truthy (splice_1_1 argv1 !! 2) = truthy (splice_1_1 argv2 !! 2) →
  glob_of argv1 = glob_of argv2 →
  main argv1 = main argv2.
Proof. unfold glob_of, main. simpl. by intros -> ->. Qed.

End MoreRunnerLemmas.

Section MoreRunnerProperties.
Context `{Externals}.

(** X6: a run over distinct files that all parse, in full: every file is
    read and then overwritten with the text printed for it, in the order
    of the glob result; the texts before and after are printed for each;
    nothing goes to [console.error]; the last line is "All done!"; no
    other file is touched. *)
Theorem successful_run_in_full (process_argv : list string) (w : World) (codemodName : string) :
  truthy (splice_1_1 process_argv !! 2) = Some codemodName →
  NoDup (globby_sync (files w) (glob_of process_argv)) →
  Forall (λ file, ∃ printed, file_result codemodName (files w) file = Normal printed)
    (globby_sync (files w) (glob_of process_argv)) →
  let found := globby_sync (files w) (glob_of process_argv) in
  script process_argv w
  = (Normal tt,
     mkWorld (write_all codemodName (files w) found)
       (console w ++ prelude (glob_of process_argv) found
          ++ run_lines codemodName (files w) found ++ [Log (chalk green "All done!")])
       (io w ++ run_events codemodName (files w) found)) ∧
  (∀ file, file ∈ found →
     ∃ source printed, files w !! file = Some source ∧
       transformFile codemodName file source = Normal printed ∧
       write_all codemodName (files w) found !! file = Some printed) ∧
  (∀ path, path ∉ found → write_all codemodName (files w) found !! path = files w !! path).
Proof.
  intros Hname Hnodup Hall found. split; [|split].
  - apply script_of_normal. rewrite (main_unfold _ _ _ Hname). fold (glob_of process_argv).
    fold found. unfold bind.
    rewrite (for_of_all_normal codemodName (files w) found); [|done|done|done].
    unfold console_log, write_all. simpl. by rewrite <- !app_assoc.
  - intros file Hin.
    destruct (proj1 (Forall_forall _ _) Hall file Hin) as [printed Hfile].
    destruct (file_result_normal _ _ _ _ Hfile) as (source & Hread & Htransform).
    exists source, printed. repeat split; [done..|].
    unfold write_all. rewrite lookup_foldl_insert_in by done.
    unfold printed_text. by rewrite Hfile.
  - intros path Hnot. unfold write_all. by apply lookup_foldl_insert_not_in.
Qed.





(** X9: a run without a codemod name, or with an empty one, is refused
    before the glob is resolved: no file is read or written, and the
    error reported lists the registered names. *)
Theorem run_without_a_name_touches_nothing (process_argv : list string) (w : World) :
  process_argv !! 3 = None ∨ process_argv !! 3 = Some EmptyString →
  script process_argv w
  = (Normal tt,
     mkWorld (files w)
       (console w ++
          [ Log (chalk green (nl +:+ nl +:+ "--- Starting codemod run. ---"));
            ErrorLine (chalk red "Codemod failed:");
            ErrorLine ("Error: You must specify a codemod to run as the first command-line "
                       +:+ "argument. Valid codemod names: react-to-star-import."
                       +:+ capture_trace "main") ])
       (io w)).
Proof.
  intros Hmissing.
  assert (Hname : truthy (splice_1_1 process_argv !! 2) = None).
  { rewrite splice_1_1_lookup by lia. by destruct Hmissing as [-> | ->]. }
  rewrite (script_of_throw _ _ _ _ (missing_name_is_refused _ w Hname)). simpl.
  by rewrite <- app_assoc.
Qed.

(** X10: the command line is read at two places only: the codemod name is
    the fourth word of the original [process.argv] and the glob the
    fifth; two command lines that agree there run alike. *)
Theorem run_reads_the_fourth_and_fifth_words (argv1 argv2 : list string) (w : World) :
  argv1 !! 3 = argv2 !! 3 →
  argv1 !! 4 = argv2 !! 4 →
  script argv1 w = script argv2 w.
Proof.
  intros Hname Hglob. unfold script. f_equal.
  apply main_reads_two_arguments; rewrite !splice_1_1_lookup by lia; done.
Qed.

(** X11: leaving the glob out, or passing an empty one, is the same as
    passing "./src/**/*.{js,jsx,ts,tsx}". *)
Theorem missing_glob_is_the_default_glob (process_argv : list string) (w : World) :
  4 ≤ length process_argv →
  process_argv !! 4 = None ∨ process_argv !! 4 = Some EmptyString →
  script process_argv w
  = script (take 4 process_argv ++ ["./src/**/*.{js,jsx,ts,tsx}"]) w.
Proof.
  intros Hlen Hglob. unfold script. f_equal.
  assert (Hlen' : length (take 4 process_argv) = 4) by (rewrite length_take; lia).
  apply main_depends_on_name_and_glob; unfold glob_of; rewrite !splice_1_1_lookup by lia.
  - rewrite lookup_app_l by lia. by rewrite lookup_take_lt by lia.
  - replace 4 with (length (take 4 process_argv)) at 2 by done.
    rewrite list_lookup_middle by done. simpl.
    by destruct Hglob as [-> | ->].
Qed.

(** X12: a run whose glob matches no file reads and writes nothing, prints
    no listing, and ends with "All done!" whatever the codemod name is. *)
Theorem run_over_no_file (process_argv : list string) (w : World) (codemodName : string) :
  truthy (splice_1_1 process_argv !! 2) = Some codemodName →
  globby_sync (files w) (glob_of process_argv) = [] →
  script process_argv w
  = (Normal tt,
     mkWorld (files w)
       (console w ++
          [ Log (chalk green (nl +:+ nl +:+ "--- Starting codemod run. ---"));
            Log (chalk blue ("Searching for files matching: " +:+ glob_of process_argv));
            Log (chalk yellow "Found 0 files to run the codemod on.");
            Log (chalk green "All done!") ])
       (io w)).
Proof.
  intros Hname Hfound. apply script_of_normal.
  rewrite (main_unfold _ _ _ Hname). fold (glob_of process_argv). rewrite Hfound.
  unfold bind, console_log, prelude. simpl. by rewrite <- !app_assoc.
Qed.

End MoreRunnerProperties.

Section ErrorReportProperties.
Context `{Externals}.

Lemma main_prints_no_error (process_argv : list string) (w : World) :
  error_lines (console (main process_argv w).2) = error_lines (console w).
Proof.
  destruct (truthy (splice_1_1 process_argv !! 2)) as [codemodName|] eqn:Hname.
  - rewrite (main_unfold _ _ _ Hname).
    set (w0 := mkWorld (files w) (console w ++ prelude _ _) (io w)).
    unfold bind.
    destruct (for_of _ (transform_one codemodName) w0) as [result w1] eqn:Hloop.
    destruct (for_of_frame _ _ _ _ _ Hloop) as (_ & _ & Herrors & _).
    assert (Hstart : error_lines (console w0) = error_lines (console w)).
    { unfold w0. simpl. by rewrite error_lines_app, error_lines_prelude, app_nil_r. }
    destruct result as [[]|err]; simpl.
    + by rewrite error_lines_app, Herrors, Hstart, app_nil_r.
    + by rewrite Herrors, Hstart.
  - rewrite (missing_name_is_refused _ w Hname). simpl.
    by rewrite error_lines_app, app_nil_r.
Qed.

(** X13: [console.error] is used by the top-level handler only: a run that
    ends without error sends it nothing, and a run that throws sends it
    one report, the line "Codemod failed:" and the stack of the error,
    however many of the files are bad. *)
Theorem one_report_per_failed_run (process_argv : list string) (w : World) :
  let w' := (script process_argv w).2 in
  (∃ w1, main process_argv w = (Normal tt, w1) ∧
     error_lines (console w') = error_lines (console w)) ∨
  (∃ err w1, main process_argv w = (Throw err, w1) ∧
     error_lines (console w')
     = error_lines (console w) ++ [chalk red "Codemod failed:"; err_stack err]).
Proof.
  simpl. pose proof (main_prints_no_error process_argv w) as Hmain.
  destruct (main process_argv w) as [[[]|err] w1] eqn:Hrun; simpl in Hmain.
  - left. exists w1. split; [done|]. by rewrite (script_of_normal _ _ _ Hrun).
  - right. exists err, w1. split; [done|].
    rewrite (script_of_throw _ _ _ _ Hrun). simpl.
    by rewrite error_lines_app, Hmain.
Qed.

End ErrorReportProperties.

(** ** Further runs on the sample inputs *)

Section MoreSampleRuns.
Import ReactToStarImport Samples MoreSamples.
Local Existing Instance Mini.externals.

Lemma codemod_changes_exactly_the_default_imports_witness :
  codemod named_import_ast "src/a.js" named_import = named_import_ast ∧
  codemod mixed_import_ast "src/a.js" EmptyString ≠ mixed_import_ast.
Proof.
  split.
  - apply (codemod_changes_exactly_the_default_imports named_import_ast).
    repeat constructor.
  - intros Hsame.
    apply (codemod_changes_exactly_the_default_imports mixed_import_ast) in Hsame.
    apply Forall_cons in Hsame as [Hfirst _]. vm_compute in Hfirst. discriminate Hfirst.
Defined.

Lemma codemod_keeps_the_bindings_witness :
  ∃ statement', body (codemod mixed_import_ast "src/a.js" EmptyString) !! 0 = Some statement' ∧
    specifier_local <$> statement_specifiers statement'
      = [mkIdentifier "React" (mkLoc 7 12); mkIdentifier "useState" (mkLoc 16 24)] ∧
    statement_loc statement' = mkLoc 0 40 ∧
    statement_source statement'
      = Some (StringLiteral "react" (quoted "react") (mkLoc 32 39)) ∧
    is_react_import statement' = true.
Proof.
  exact (codemod_keeps_the_bindings mixed_import_ast "src/a.js" EmptyString 0 _ eq_refl).
Defined.

Lemma unregistered_name_is_refused_with_the_list_of_names_witness :
  ∃ err, transformFile "no-such-codemod" "src/a.js" default_import = Throw err ∧
    err_name err = "Error" ∧
    err_message err
    = "No such codemod: no-such-codemod. Valid codemod names: react-to-star-import.".
Proof.
  apply (unregistered_name_is_refused_with_the_list_of_names
           "no-such-codemod" "src/a.js" default_import default_import_ast).
  - discriminate.
  - apply (bool_decide_unpack (_ ∉ _)). vm_compute. exact I.
  - vm_compute. reflexivity.
Defined.


Lemma inherited_member_fails_with_a_TypeError_witness :
  ∃ err, transformFile "valueOf" "src/a.js" default_import = Throw err ∧
    err_name err = "TypeError".
Proof.
  apply (inherited_member_fails_with_a_TypeError
           "valueOf" "src/a.js" default_import default_import_ast).
  - apply (bool_decide_unpack (_ ∈ _)). vm_compute. exact I.
  - discriminate.
  - discriminate.
  - vm_compute. reflexivity.
Defined.

Lemma successful_run_in_full_witness :
  files (script two_files_argv two_files).2 !! "src/a.js" = Some star_import ∧
  files (script two_files_argv two_files).2 !! "src/b.js" = Some named_import ∧
  io (script two_files_argv two_files).2
    = [ReadFile "src/a.js"; WriteFile "src/a.js" star_import;
       ReadFile "src/b.js"; WriteFile "src/b.js" named_import] ∧
  last (console (script two_files_argv two_files).2) = Some (Log "All done!").
Proof.
  destruct (successful_run_in_full two_files_argv two_files "react-to-star-import")
    as (Hscript & _ & _).
  - reflexivity.
  - apply (bool_decide_unpack (NoDup _)). vm_compute. exact I.
  - assert (Hfound : globby_sync (files two_files) (glob_of two_files_argv)
                     = ["src/a.js"; "src/b.js"]) by (vm_compute; reflexivity).
    rewrite Hfound. repeat constructor; eexists; vm_compute; reflexivity.
  - rewrite Hscript. repeat split; vm_compute; reflexivity.
Defined.


Lemma run_without_a_name_touches_nothing_witness :
  io (script bare_argv three_files).2 = [] ∧
  files (script bare_argv three_files).2 = files three_files ∧
  error_lines (console (script bare_argv three_files).2)
    = ["Codemod failed:";
       "Error: You must specify a codemod to run as the first command-line argument. "
       +:+ "Valid codemod names: react-to-star-import." +:+ nl +:+ "    at main"].
Proof.
  rewrite (run_without_a_name_touches_nothing bare_argv three_files) by (left; reflexivity).
  repeat split.
Defined.

Lemma run_reads_the_fourth_and_fifth_words_witness :
  script ["deno"; "run"; "other.ts"; "react-to-star-import"; "src/a.js"; "--verbose"] one_file
  = script one_file_argv one_file.
Proof.
  apply run_reads_the_fourth_and_fifth_words; reflexivity.
Defined.

Lemma missing_glob_is_the_default_glob_witness :
  script name_only_argv one_file
  = script (name_only_argv ++ ["./src/**/*.{js,jsx,ts,tsx}"]) one_file.
Proof.
  apply (missing_glob_is_the_default_glob name_only_argv one_file).
  - vm_compute. lia.
  - left. reflexivity.
Defined.

Lemma run_over_no_file_witness :
  script name_only_argv one_file
  = (Normal tt,
     mkWorld (files one_file)
       [ Log (nl +:+ nl +:+ "--- Starting codemod run. ---");
         Log "Searching for files matching: ./src/**/*.{js,jsx,ts,tsx}";
         Log "Found 0 files to run the codemod on.";
         Log "All done!" ]
       []).
Proof.
  rewrite (run_over_no_file name_only_argv one_file "react-to-star-import").
  - reflexivity.
  - reflexivity.
  - vm_compute. reflexivity.
Defined.

End MoreSampleRuns.
